(** * data-integrity_app: the comparison engine of [src/comparison.py]

    A shallow embedding of [compare_files] and [compare_sheets], of the
    1000-record caps of [src/highlighting.py] and [app.py] with the
    value-difference block of the highlighter, of
    [display_comparison_results], of the integer downcast of
    [optimize_dataframe], and of the fragments of Python and pandas
    these functions rely on.

    Conventions of the embedding.
    - The [st.info], [st.warning] and [st.error] calls of [comparison.py]
      write to the Streamlit page and do not influence the returned
      triple; they are left out.  The wall-clock timing is left out too.
    - Python [set]s are [gset]s.  Iterating a Python set visits its
      members in an order the language does not fix, and which may
      depend on the order in which they were added; the model iterates
      in the order of [elements].  A list built from a set is therefore
      the code's up to the order of its entries, and where the code
      keeps the first 100 entries of such a list, up to which entries
      those are.
    - Python [dict]s indexed by key tuples are [gmap]s; the small
      dictionaries built by [dict(zip(..))], whose insertion order is
      visible to consumers, are association lists.
    - [detailed_report] and [summary_report] are lists of the strings the
      f-strings of the source produce. *)

From stdpp Require Import gmap strings list fin_maps pretty.
From Stdlib Require Import ZArith Lia Ascii.

Open Scope Z_scope.
Open Scope string_scope.

(** ** Python builtins used by the comparator *)
Module Py.

(** The only exception the modelled code can raise on the frames of
    module [Pandas]: [range()] with a zero step. *)
Inductive exn : Type :=
| ValueError (msg : string).

Inductive outcome (A : Type) : Type :=
| Returns (a : A)
| Raises (e : exn).
Arguments Returns {A} a.
Arguments Raises {A} e.

Definition bind {A B} (m : outcome A) (k : A -> outcome B) : outcome B :=
  match m with
  | Returns a => k a
  | Raises e => Raises e
  end.

(** [range(start, stop, step)] for [step > 0], as the loop it stands
    for; [fuel] bounds the number of iterations. *)
Fixpoint range_from (fuel start stop step : nat) : list nat :=
  match fuel with
  | O => []
  | S fuel' =>
      if (start <? stop)%nat
      then start :: range_from fuel' (start + step)%nat stop step
      else []
  end.

(** [range(0, stop, step)] with [stop = len(..) >= 0] and an arbitrary
    integer [step]: a zero step raises, a negative step gives the empty
    range, a positive step gives [0, step, 2*step, ..] below [stop]. *)
Definition range (stop : nat) (step : Z) : outcome (list nat) :=
  if bool_decide (step = 0) then
    Raises (ValueError "range() arg 3 must not be zero")
  else if bool_decide (step < 0) then Returns []
  else Returns (range_from stop 0 stop (Z.to_nat step)).

(** [l[i:i+n]] for [0 <= i] and [0 < n]. *)
Definition slice {A} (l : list A) (i n : nat) : list A := take n (drop i l).

(** [list.index]: position of the first occurrence. *)
Fixpoint index (x : string) (l : list string) : option nat :=
  match l with
  | [] => None
  | y :: l' => if bool_decide (x = y) then Some O else S <$> index x l'
  end.

(** [', '.join(xs)] *)
Definition join (sep : string) (xs : list string) : string :=
  String.concat sep xs.

(** *** [dict(zip(keys, values))]: an insertion-ordered dictionary *)
Definition dict : Type := list (string * string).

Fixpoint dict_set (k v : string) (d : dict) : dict :=
  match d with
  | [] => [(k, v)]
  | (k', v') :: d' =>
      if bool_decide (k = k') then (k', v) :: d'
      else (k', v') :: dict_set k v d'
  end.

Fixpoint zip {A B} (xs : list A) (ys : list B) : list (A * B) :=
  match xs, ys with
  | x :: xs', y :: ys' => (x, y) :: zip xs' ys'
  | _, _ => []
  end.

Definition dict_of_pairs (kvs : list (string * string)) : dict :=
  fold_left (fun d kv => dict_set (fst kv) (snd kv) d) kvs [].

(** *** [repr] of a [str] and of a list of [str]

    Strings are byte strings holding UTF-8 text.  CPython quotes with
    ['] unless the text holds a ['] and no double quote, escapes the
    quote, the backslash, tab, newline, carriage return, and writes the
    other ASCII control bytes as [\xNN].  On ASCII text the functions
    below are CPython's [repr].  Outside ASCII CPython copies the
    printable characters and escapes the others (U+00A0 as [\xa0],
    U+200B as [\u200b]); which characters are printable is a table of
    the Unicode database, which is not modelled: the functions below
    copy every byte from 128 on, and so differ from [repr] on text with
    such characters.  Statements about every list of names therefore
    take [repr] as an argument ([compare_sheets_with] in module
    [Comparison]); the functions below serve for ASCII names. *)
Definition squote : ascii := ascii_of_nat 39.
Definition dquote : ascii := ascii_of_nat 34.
Definition backslash : ascii := ascii_of_nat 92.

Fixpoint contains (c : ascii) (s : string) : bool :=
  match s with
  | EmptyString => false
  | String c' s' => bool_decide (c = c') || contains c s'
  end.

Definition hex_digit (n : nat) : ascii :=
  if (n <? 10)%nat then ascii_of_nat (48 + n) else ascii_of_nat (87 + n).

Definition repr_char (quote c : ascii) : string :=
  let n := nat_of_ascii c in
  if bool_decide (c = quote) || bool_decide (c = backslash)
  then String backslash (String c EmptyString)
  else if (n =? 9)%nat then String backslash "t"
  else if (n =? 10)%nat then String backslash "n"
  else if (n =? 13)%nat then String backslash "r"
  else if (n <? 32)%nat || (n =? 127)%nat then
    String backslash
      (String "x"%char (String (hex_digit (n / 16)) (String (hex_digit (n mod 16)) EmptyString)))
  else String c EmptyString.

Fixpoint repr_body (quote : ascii) (s : string) : string :=
  match s with
  | EmptyString => EmptyString
  | String c s' => repr_char quote c +:+ repr_body quote s'
  end.

Definition repr_str (s : string) : string :=
  let quote := if contains squote s && negb (contains dquote s)
               then dquote else squote in
  String quote (repr_body quote s +:+ String quote EmptyString).

Definition repr_list (xs : list string) : string :=
  "[" +:+ join ", " (repr_str <$> xs) +:+ "]".

End Py.

(** ** The fragment of pandas the comparator uses *)
Module Pandas.

(** A cell of a frame.  Frames are modelled with columns of object
    dtype holding a float NaN, [None], a Python [int] or a [str].
    Finite floats, timestamps and booleans are not modelled, so the
    dtype upcasting of [iterrows] does not arise. *)
Inductive cell : Type :=
| NaN
| PyNone
| PyInt (n : Z)
| PyStr (s : string).

#[export] Instance cell_eq_dec : EqDecision cell.
Proof. solve_decision. Defined.

#[export] Instance cell_inhabited : Inhabited cell := populate NaN.

(** [str(x)] *)
Definition str (c : cell) : string :=
  match c with
  | NaN => "nan"
  | PyNone => "None"
  | PyInt n => pretty n
  | PyStr s => s
  end.

(** [pd.notna(x)] *)
Definition notna (c : cell) : bool :=
  match c with
  | NaN | PyNone => false
  | PyInt _ | PyStr _ => true
  end.

(** A frame with the default [RangeIndex]: the column labels in order
    and the rows in order, each row holding one cell per column.  The
    labels are taken to be distinct, as [read_csv] and [read_excel] make
    them; with a repeated label [row[col]] is a Series rather than a
    cell, which the model does not cover. *)
Record DataFrame : Type := {
  columns : list string;
  rows : list (list cell)
}.

(** [len(df)] *)
Definition len (df : DataFrame) : nat := length (rows df).

(** [row[col]] for a row Series labelled by the frame's columns.  The
    comparator only reads labels it has checked to be columns of the
    frame; the model answers NaN elsewhere. *)
Definition getitem (labels : list string) (row : list cell) (col : string) : cell :=
  match Py.index col labels with
  | Some j => row !!! j
  | None => NaN
  end.

(** [df.loc[idx, col]] under the default index. *)
Definition loc (df : DataFrame) (idx : nat) (col : string) : cell :=
  getitem (columns df) (rows df !!! idx) col.

(** Elementwise test of [DataFrame.equals]: equal values, or missing
    values in the same place. *)
Definition cell_equiv (a b : cell) : bool :=
  match a, b with
  | PyInt m, PyInt n => bool_decide (m = n)
  | PyStr s, PyStr t => bool_decide (s = t)
  | (NaN | PyNone), (NaN | PyNone) => true
  | _, _ => false
  end.

Fixpoint all2 {A} (p : A -> A -> bool) (xs ys : list A) : bool :=
  match xs, ys with
  | [], [] => true
  | x :: xs', y :: ys' => p x y && all2 p xs' ys'
  | _, _ => false
  end.

(** [df1.equals(df2)]: same labels in the same order, same shape, and
    equivalent cells throughout. *)
Definition equals (df1 df2 : DataFrame) : bool :=
  bool_decide (columns df1 = columns df2)
  && all2 (all2 cell_equiv) (rows df1) (rows df2).

End Pandas.

(** ** [src/comparison.py] *)
Module Comparison.
Import Py Pandas.

(** *** The result structures *)

(** [error_details["column_differences"]] *)
Record ColumnDifferences : Type := {
  missing_columns : list string;
  extra_columns : list string;
  reordered_columns : list string
}.

(** [error_details["row_differences"]] *)
Record RowDifferences : Type := {
  count_diff : Z;
  missing_rows : list dict;
  extra_rows : list dict
}.

(** A value-difference record carries either ["key": {..}] (keyed mode)
    or ["row": i] (positional mode). *)
Inductive locator : Type :=
| Key (key : dict)
| Row (row : nat).

Record ValueDiff : Type := {
  at_ : locator;
  column : string;
  value1 : string;
  value2 : string
}.

Record ErrorDetails : Type := {
  column_differences : ColumnDifferences;
  row_differences : RowDifferences;
  value_differences : list ValueDiff
}.

(** The triple [(detailed_report, summary_report, error_details)] that
    [compare_sheets] builds up and returns. *)
Record Report : Type := {
  detailed_report : list string;
  summary_report : list string;
  error_details : ErrorDetails
}.

#[export] Instance dict_eq_dec : EqDecision dict.
Proof. unfold dict. apply _. Defined.
#[export] Instance locator_eq_dec : EqDecision locator.
Proof. solve_decision. Defined.
#[export] Instance ValueDiff_eq_dec : EqDecision ValueDiff.
Proof. solve_decision. Defined.

(** *** The in-place updates of the source, as state transformers *)

Definition append_detailed (line : string) (r : Report) : Report :=
  {| detailed_report := detailed_report r ++ [line];
     summary_report := summary_report r;
     error_details := error_details r |}.

Definition append_summary (line : string) (r : Report) : Report :=
  {| detailed_report := detailed_report r;
     summary_report := summary_report r ++ [line];
     error_details := error_details r |}.

Definition update_column_differences
    (f : ColumnDifferences -> ColumnDifferences) (r : Report) : Report :=
  let e := error_details r in
  {| detailed_report := detailed_report r;
     summary_report := summary_report r;
     error_details :=
       {| column_differences := f (column_differences e);
          row_differences := row_differences e;
          value_differences := value_differences e |} |}.

Definition update_row_differences
    (f : RowDifferences -> RowDifferences) (r : Report) : Report :=
  let e := error_details r in
  {| detailed_report := detailed_report r;
     summary_report := summary_report r;
     error_details :=
       {| column_differences := column_differences e;
          row_differences := f (row_differences e);
          value_differences := value_differences e |} |}.

Definition set_value_differences (v : list ValueDiff) (r : Report) : Report :=
  let e := error_details r in
  {| detailed_report := detailed_report r;
     summary_report := summary_report r;
     error_details :=
       {| column_differences := column_differences e;
          row_differences := row_differences e;
          value_differences := v |} |}.

Definition set_missing_columns (v : list string) : Report -> Report :=
  update_column_differences (fun c =>
    {| missing_columns := v;
       extra_columns := extra_columns c;
       reordered_columns := reordered_columns c |}).

Definition set_extra_columns (v : list string) : Report -> Report :=
  update_column_differences (fun c =>
    {| missing_columns := missing_columns c;
       extra_columns := v;
       reordered_columns := reordered_columns c |}).

Definition set_reordered_columns (v : list string) : Report -> Report :=
  update_column_differences (fun c =>
    {| missing_columns := missing_columns c;
       extra_columns := extra_columns c;
       reordered_columns := v |}).

Definition set_count_diff (v : Z) : Report -> Report :=
  update_row_differences (fun d =>
    {| count_diff := v;
       missing_rows := missing_rows d;
       extra_rows := extra_rows d |}).

Definition set_missing_rows (v : list dict) : Report -> Report :=
  update_row_differences (fun d =>
    {| count_diff := count_diff d;
       missing_rows := v;
       extra_rows := extra_rows d |}).

Definition set_extra_rows (v : list dict) : Report -> Report :=
  update_row_differences (fun d =>
    {| count_diff := count_diff d;
       missing_rows := missing_rows d;
       extra_rows := v |}).

(** Lines 145-159: the initial, empty triple. *)
Definition empty_error_details : ErrorDetails :=
  {| column_differences :=
       {| missing_columns := []; extra_columns := []; reordered_columns := [] |};
     row_differences :=
       {| count_diff := 0; missing_rows := []; extra_rows := [] |};
     value_differences := [] |}.

Definition empty_report : Report :=
  {| detailed_report := [];
     summary_report := [];
     error_details := empty_error_details |}.

(** *** Column differences (lines 166-195) *)

Definition df_cols (df : DataFrame) : gset string := list_to_set (columns df).

Definition missing_cols (df1 df2 : DataFrame) : gset string := df_cols df1 ∖ df_cols df2.
Definition extra_cols (df1 df2 : DataFrame) : gset string := df_cols df2 ∖ df_cols df1.
Definition common_cols (df1 df2 : DataFrame) : gset string := df_cols df1 ∩ df_cols df2.

Definition log_missing_columns (df1 df2 : DataFrame) (r : Report) : Report :=
  let s := missing_cols df1 df2 in
  if bool_decide (s ≠ ∅) then
    append_summary ("Missing columns: " +:+ pretty (size s))
      (append_detailed ("Missing columns in second file: " +:+ join ", " (elements s))
        (set_missing_columns (elements s) r))
  else r.

Definition log_extra_columns (df1 df2 : DataFrame) (r : Report) : Report :=
  let s := extra_cols df1 df2 in
  if bool_decide (s ≠ ∅) then
    append_summary ("Extra columns: " +:+ pretty (size s))
      (append_detailed ("Extra columns in second file: " +:+ join ", " (elements s))
        (set_extra_columns (elements s) r))
  else r.

(** Line 190: the columns of [df1], in order, that are common to both
    frames and whose position in [list(df1.columns)] differs from their
    position in [list(df2.columns)]. *)
Definition reordered_cols (df1 df2 : DataFrame) : list string :=
  filter (fun col => col ∈ common_cols df1 df2
                     ∧ index col (columns df1) ≠ index col (columns df2))
         (columns df1).

Definition log_reordered_columns (df1 df2 : DataFrame) (r : Report) : Report :=
  if bool_decide (columns df1 ≠ columns df2) then
    let l := reordered_cols df1 df2 in
    if bool_decide (l ≠ []) then
      append_summary ("Reordered columns: " +:+ pretty (length l))
        (append_detailed ("Reordered columns: " +:+ join ", " l)
          (set_reordered_columns l r))
    else r
  else r.

(** *** Row count (lines 197-203) *)

Definition row_diff (df1 df2 : DataFrame) : Z :=
  Z.of_nat (len df1) - Z.of_nat (len df2).

Definition log_row_count (df1 df2 : DataFrame) (r : Report) : Report :=
  let d := row_diff df1 df2 in
  if bool_decide (d ≠ 0) then
    append_summary ("Row count difference: " +:+ pretty (Z.abs d))
      (append_detailed
         ("Row count difference: " +:+ pretty d +:+ " (" +:+ pretty (len df1)
            +:+ " vs " +:+ pretty (len df2) +:+ ")")
         (set_count_diff d r))
  else r.

(** Lines 166-203 together: what every non-identical pair goes through
    before rows are looked at. *)
Definition structural_report (df1 df2 : DataFrame) : Report :=
  log_row_count df1 df2
    (log_reordered_columns df1 df2
      (log_extra_columns df1 df2
        (log_missing_columns df1 df2 empty_report))).

(** Lines 291-295 and 356-360: [if value_diffs: ..]. *)
Definition log_value_differences (value_diffs : list ValueDiff) (r : Report) : Report :=
  if bool_decide (value_diffs ≠ []) then
    append_summary ("Value differences: " +:+ pretty (length value_diffs))
      (append_detailed ("Value differences: " +:+ pretty (length value_diffs))
        (set_value_differences value_diffs r))
  else r.

(** *** Keyed mode (lines 215-295) *)

(** [tuple(str(row[col]) for col in key_columns)] *)
Definition key_values (df : DataFrame) (key_columns : list string)
    (row : list cell) : list string :=
  (fun col => str (getitem (columns df) row col)) <$> key_columns.

(** Lines 219-230: the lookup built by [iterrows]; a later row with the
    same key replaces an earlier one. *)
Definition build_dict (df : DataFrame) (key_columns : list string)
    : gmap (list string) (list cell) :=
  fold_left (fun d row => <[key_values df key_columns row := row]> d) (rows df) ∅.

Definition common_keys (df1 df2 : DataFrame) (key_columns : list string)
    : gset (list string) :=
  dom (build_dict df1 key_columns) ∩ dom (build_dict df2 key_columns).
Definition missing_keys (df1 df2 : DataFrame) (key_columns : list string)
    : gset (list string) :=
  dom (build_dict df1 key_columns) ∖ dom (build_dict df2 key_columns).
Definition extra_keys (df1 df2 : DataFrame) (key_columns : list string)
    : gset (list string) :=
  dom (build_dict df2 key_columns) ∖ dom (build_dict df1 key_columns).

(** [dict(zip(key_columns, key))] *)
Definition key_dict (key_columns key : list string) : dict :=
  dict_of_pairs (zip key_columns key).

(** Lines 239-248.  [list(missing_keys)[:100]] keeps 100 keys of the
    set when it has more; which ones depends on the order of the set. *)
Definition log_missing_rows (df1 df2 : DataFrame) (key_columns : list string)
    (r : Report) : Report :=
  let s := missing_keys df1 df2 key_columns in
  if bool_decide (s ≠ ∅) then
    append_summary ("Missing rows: " +:+ pretty (size s))
      (append_detailed ("Missing rows in second file: " +:+ pretty (size s))
        (set_missing_rows (key_dict key_columns <$> take 100 (elements s)) r))
  else r.

Definition log_extra_rows (df1 df2 : DataFrame) (key_columns : list string)
    (r : Report) : Report :=
  let s := extra_keys df1 df2 key_columns in
  if bool_decide (s ≠ ∅) then
    append_summary ("Extra rows: " +:+ pretty (size s))
      (append_detailed ("Extra rows in second file: " +:+ pretty (size s))
        (set_extra_rows (key_dict key_columns <$> take 100 (elements s)) r))
  else r.

(** Lines 267-268: [str(x) if pd.notna(x) else "NaN"]. *)
Definition normalize (c : cell) : string :=
  if notna c then str c else "NaN".

(** Lines 261-278: the records of one common key. *)
Definition key_diffs (df1 df2 : DataFrame) (key_columns : list string)
    (key : list string) : list ValueDiff :=
  let row1 := build_dict df1 key_columns !!! key in
  let row2 := build_dict df2 key_columns !!! key in
  flat_map (fun col =>
      let val1 := normalize (getitem (columns df1) row1 col) in
      let val2 := normalize (getitem (columns df2) row2 col) in
      if bool_decide (val1 ≠ val2) then
        [ {| at_ := Key (key_dict key_columns key);
             column := col; value1 := val1; value2 := val2 |} ]
      else [])
    (elements (common_cols df1 df2)).

(** Lines 254-289: the loop over chunks of [keys_list], which is
    [list(common_keys)] in the order of the set. *)
Definition keyed_value_diffs (df1 df2 : DataFrame) (key_columns : list string)
    (chunk_size : Z) : outcome (list ValueDiff) :=
  let keys_list := elements (common_keys df1 df2 key_columns) in
  bind (range (length keys_list) chunk_size) (fun starts =>
    Returns
      (flat_map (fun i =>
           let chunk_keys := slice keys_list i (Z.to_nat chunk_size) in
           flat_map (key_diffs df1 df2 key_columns) chunk_keys)
         starts)).

(** *** Positional mode (lines 302-360) *)

(** Lines 319-339 for one chunk [i .. chunk_end): per common column, the
    rows of the chunk whose [astype(str)] renderings differ. *)
Definition chunk_diffs (df1 df2 : DataFrame) (i chunk_end : nat) : list ValueDiff :=
  flat_map (fun col =>
      flat_map (fun idx =>
          let s1 := str (loc df1 idx col) in
          let s2 := str (loc df2 idx col) in
          if bool_decide (s1 ≠ s2) then
            [ {| at_ := Row idx; column := col;
                 value1 := str (loc df1 idx col);
                 value2 := str (loc df2 idx col) |} ]
          else [])
        (seq i (chunk_end - i)))
    (elements (common_cols df1 df2)).

Definition positional_value_diffs (df1 df2 : DataFrame) (chunk_size : Z)
    : outcome (list ValueDiff) :=
  let min_rows := Nat.min (len df1) (len df2) in
  bind (range min_rows chunk_size) (fun starts =>
    Returns
      (flat_map (fun i =>
           let chunk_end := Nat.min (i + Z.to_nat chunk_size) min_rows in
           chunk_diffs df1 df2 i chunk_end)
         starts)).

(** *** [compare_sheets] *)

(** Line 297 *)
Definition missing_key_cols (df1 df2 : DataFrame) (key_columns : list string)
    : list string :=
  filter (fun col => col ∉ columns df1 ∨ col ∉ columns df2) key_columns.

(** Line 214 *)
Definition key_columns_present (df1 df2 : DataFrame) (key_columns : list string)
    : bool :=
  forallb (fun col => bool_decide (col ∈ columns df1)) key_columns
  && forallb (fun col => bool_decide (col ∈ columns df2)) key_columns.

(** Python truthiness of the [key_columns] argument: [None] and the
    empty list are false. *)
Definition truthy (key_columns : option (list string)) : option (list string) :=
  match key_columns with
  | Some (c :: cs) => Some (c :: cs)
  | Some [] | None => None
  end.

(** Lines 356-360 applied to the state reached at line 203: the triple
    the positional branch returns for the list [v] its loop built. *)
Definition positional_report (df1 df2 : DataFrame) (v : list ValueDiff) : Report :=
  log_value_differences v (structural_report df1 df2).

(** Lines 239-248 and 291-295: the triple the keyed branch returns. *)
Definition keyed_report (df1 df2 : DataFrame) (key_columns : list string)
    (v : list ValueDiff) : Report :=
  log_value_differences v
    (log_extra_rows df1 df2 key_columns
      (log_missing_rows df1 df2 key_columns (structural_report df1 df2))).

(** Lines 297-300: the triple returned when a key column is absent.
    The f-string of line 298 shows the list [missing_key_cols] with
    Python's [repr]; [repr] is that builtin, on lists of [str]. *)
Definition key_columns_missing_report_with (repr : list string -> string)
    (df1 df2 : DataFrame) (key_columns : list string) : Report :=
  append_summary "Unable to compare rows: key columns missing"
    (append_detailed
       ("Key columns not found in both dataframes: "
          +:+ repr (missing_key_cols df1 df2 key_columns))
       (structural_report df1 df2)).

(** [compare_sheets], with the builtin [repr] it applies to a list of
    column names as the argument [repr]. *)
Definition compare_sheets_with (repr : list string -> string) (df1 df2 : DataFrame)
    (key_columns : option (list string)) (chunk_size : Z) : outcome Report :=
  if equals df1 df2 then Returns empty_report
  else
    match truthy key_columns with
    | Some key_columns =>
        if key_columns_present df1 df2 key_columns then
          bind (keyed_value_diffs df1 df2 key_columns chunk_size) (fun value_diffs =>
            Returns (keyed_report df1 df2 key_columns value_diffs))
        else Returns (key_columns_missing_report_with repr df1 df2 key_columns)
    | None =>
        bind (positional_value_diffs df1 df2 chunk_size) (fun value_diffs =>
          Returns (positional_report df1 df2 value_diffs))
    end.

(** The same with [repr] computed by [repr_list]: this is
    [compare_sheets] whenever the absent key columns have ASCII names,
    and on every call that does not reach line 298. *)
Definition key_columns_missing_report (df1 df2 : DataFrame)
    (key_columns : list string) : Report :=
  key_columns_missing_report_with repr_list df1 df2 key_columns.

Definition compare_sheets (df1 df2 : DataFrame)
    (key_columns : option (list string)) (chunk_size : Z) : outcome Report :=
  compare_sheets_with repr_list df1 df2 key_columns chunk_size.

(** The defaults of the signature: [key_columns=None, chunk_size=10000]. *)
Definition default_chunk_size : Z := 10000.

End Comparison.

(** ** [compare_files] of [src/comparison.py] *)
Module Files.
Import Py Pandas.

(** The dictionary [read_file] returns: ["type"] is ["excel"] with a
    dictionary of sheets, ["csv"] with one frame, or [None] for any
    other extension. *)
Inductive FileData : Type :=
| ExcelFile (sheet_names : list string) (data : gmap string DataFrame)
| CsvFile (data : DataFrame)
| OtherFile.

(** [data["type"]] *)
Definition type (d : FileData) : option string :=
  match d with
  | ExcelFile _ _ => Some "excel"
  | CsvFile _ => Some "csv"
  | OtherFile => None
  end.

(** [data["type"]] inside an f-string. *)
Definition type_str (d : FileData) : string :=
  match type d with
  | Some t => t
  | None => "None"
  end.

(** [error_details] of [compare_files]: per-sheet entries keyed by the
    sheet name, or by ["data"] for a CSV pair. *)
Record ErrorDetails : Type := {
  missing_sheets : list string;
  extra_sheets : list string;
  column_differences : gmap string Comparison.ColumnDifferences;
  row_differences : gmap string Comparison.RowDifferences;
  value_differences : gmap string (list Comparison.ValueDiff)
}.

Record Report : Type := {
  detailed_report : list string;
  summary_report : list string;
  error_details : ErrorDetails
}.

Definition empty_error_details : ErrorDetails :=
  {| missing_sheets := []; extra_sheets := [];
     column_differences := ∅; row_differences := ∅; value_differences := ∅ |}.

Definition empty_report : Report :=
  {| detailed_report := []; summary_report := [];
     error_details := empty_error_details |}.

(** Python truthiness of the three per-sheet values: the two
    dictionaries always hold their three keys, so they are true; the
    list is true when it is non-empty. *)
Definition truthy_columns (_ : Comparison.ColumnDifferences) : bool := true.
Definition truthy_rows (_ : Comparison.RowDifferences) : bool := true.
Definition truthy_values (v : list Comparison.ValueDiff) : bool :=
  bool_decide (v ≠ []).

(** Lines 89-94 and 111-118: copy the non-empty categories of one sheet
    result under the name [sheet]. *)
Definition record_sheet (sheet : string) (s : Comparison.ErrorDetails)
    (e : ErrorDetails) : ErrorDetails :=
  {| missing_sheets := missing_sheets e;
     extra_sheets := extra_sheets e;
     column_differences :=
       if truthy_columns (Comparison.column_differences s)
       then <[sheet := Comparison.column_differences s]> (column_differences e)
       else column_differences e;
     row_differences :=
       if truthy_rows (Comparison.row_differences s)
       then <[sheet := Comparison.row_differences s]> (row_differences e)
       else row_differences e;
     value_differences :=
       if truthy_values (Comparison.value_differences s)
       then <[sheet := Comparison.value_differences s]> (value_differences e)
       else value_differences e |}.

Definition extend_reports (s : Comparison.Report) (r : Report) : Report :=
  {| detailed_report := detailed_report r ++ Comparison.detailed_report s;
     summary_report := summary_report r ++ Comparison.summary_report s;
     error_details := error_details r |}.

Definition with_error_details (e : ErrorDetails) (r : Report) : Report :=
  {| detailed_report := detailed_report r;
     summary_report := summary_report r;
     error_details := e |}.

(** Line 84: [any(sheet_error_details.values())]. *)
Definition any_values (s : Comparison.ErrorDetails) : bool :=
  truthy_columns (Comparison.column_differences s)
  || truthy_rows (Comparison.row_differences s)
  || truthy_values (Comparison.value_differences s).

(** Lines 62-99 for one common sheet: the task is submitted when both
    dictionaries hold the sheet, [compare_sheets] runs with its default
    [key_columns=None] and [chunk_size=10000], and an exception of the
    task is caught and shown, leaving the triple as it was. *)
Definition process_sheet (data1 data2 : gmap string DataFrame)
    (r : Report) (sheet : string) : Report :=
  match data1 !! sheet, data2 !! sheet with
  | Some df1, Some df2 =>
      match Comparison.compare_sheets df1 df2 None Comparison.default_chunk_size with
      | Returns s =>
          if any_values (Comparison.error_details s) then
            with_error_details
              (record_sheet sheet (Comparison.error_details s) (error_details r))
              (extend_reports s r)
          else r
      | Raises _ => r
      end
  | _, _ => r
  end.

(** Lines 43-53. *)
Definition log_missing_sheets (s : gset string) (r : Report) : Report :=
  if bool_decide (s ≠ ∅) then
    {| detailed_report := detailed_report r ++
         ((fun sheet => "Sheet '" +:+ sheet +:+ "' is in file 1 but missing in file 2")
            <$> elements s);
       summary_report := summary_report r ++
         ((fun sheet => "Sheet '" +:+ sheet +:+ "' is missing in file 2") <$> elements s);
       error_details :=
         {| missing_sheets := elements s;
            extra_sheets := extra_sheets (error_details r);
            column_differences := column_differences (error_details r);
            row_differences := row_differences (error_details r);
            value_differences := value_differences (error_details r) |} |}
  else r.

Definition log_extra_sheets (s : gset string) (r : Report) : Report :=
  if bool_decide (s ≠ ∅) then
    {| detailed_report := detailed_report r ++
         ((fun sheet => "Sheet '" +:+ sheet +:+ "' is in file 2 but missing in file 1")
            <$> elements s);
       summary_report := summary_report r ++
         ((fun sheet => "Extra sheet '" +:+ sheet +:+ "' in file 2") <$> elements s);
       error_details :=
         {| missing_sheets := missing_sheets (error_details r);
            extra_sheets := elements s;
            column_differences := column_differences (error_details r);
            row_differences := row_differences (error_details r);
            value_differences := value_differences (error_details r) |} |}
  else r.

(** [compare_files].  In the Excel branch the results of the worker
    pool are merged in completion order, which the model takes to be
    the order of [elements common_sheets]; [ThreadPoolExecutor] refuses
    [max_workers=0], which is what [min(8, len(common_sheets))] is when
    the workbooks share no sheet name. *)
Definition compare_files (data1 data2 : FileData) : outcome Report :=
  if bool_decide (type data1 ≠ type data2) then
    let line := "File types are different: " +:+ type_str data1
                  +:+ " vs " +:+ type_str data2 in
    Returns {| detailed_report := [line]; summary_report := [line];
               error_details := empty_error_details |}
  else
    match data1, data2 with
    | ExcelFile sheet_names1 sheets_data1, ExcelFile sheet_names2 sheets_data2 =>
        let sheets1 : gset string := list_to_set sheet_names1 in
        let sheets2 : gset string := list_to_set sheet_names2 in
        let common_sheets := sheets1 ∩ sheets2 in
        let r := log_extra_sheets (sheets2 ∖ sheets1)
                   (log_missing_sheets (sheets1 ∖ sheets2) empty_report) in
        if bool_decide (common_sheets = ∅) then
          Raises (ValueError "max_workers must be greater than 0")
        else
          Returns (fold_left (process_sheet sheets_data1 sheets_data2)
                             (elements common_sheets) r)
    | CsvFile df1, CsvFile df2 =>
        bind (Comparison.compare_sheets df1 df2 None Comparison.default_chunk_size)
          (fun s =>
             Returns
               (with_error_details
                  (record_sheet "data" (Comparison.error_details s) empty_error_details)
                  (extend_reports s empty_report)))
    | _, _ => Returns empty_report
    end.



End Files.

(** ** The display caps of [src/highlighting.py] and [app.py] *)
Module Highlighting.

(** Lines 213-215 of [highlight_differences_excel] and 551-553 of
    [highlight_differences_csv]:
    [if len(value_diffs) > 1000: value_diffs = value_diffs[:1000]].
    Everything the highlighter does with value differences afterwards
    reads this local list only. *)
Definition limit_value_diffs (value_diffs : list Comparison.ValueDiff)
    : list Comparison.ValueDiff :=
  if bool_decide (1000 < length value_diffs)%nat then take 1000 value_diffs
  else value_diffs.

End Highlighting.

Module App.

(** Lines 340-346 of [display_comparison_results]: the table of value
    differences shows at most 1000 rows, with a warning when rows were
    dropped.  The result pairs the Streamlit warnings with the rows
    handed to [st.dataframe]. *)
Definition displayed_value_diffs {A} (all_diffs : list A) : list string * list A :=
  if bool_decide (1000 < length all_diffs)%nat then
    (["Showing only 1000 of " +:+ pretty (length all_diffs) +:+ " value differences"],
     take 1000 all_diffs)
  else ([], all_diffs).

End App.

(** ** The rule of the specification for reordered columns

    Restrict each frame's column order to the columns common to both and
    flag a column when its index in the first restricted order differs
    from its index in the second.  This follows the specification's
    wording, not the source, and is compared with [reordered_cols]. *)
Module Spec.
Import Py Pandas.

Definition common_order (df other : DataFrame) : list string :=
  filter (fun col => col ∈ columns other) (columns df).

Definition relative_reordered (df1 df2 : DataFrame) : list string :=
  filter (fun col => index col (common_order df1 df2) ≠ index col (common_order df2 df1))
         (common_order df1 df2).

End Spec.

(** ** Concrete frames used in the examples *)
Module Scenarios.
Import Py Pandas.

(** Scenario 2 of the specification. *)
Definition ledger_A : DataFrame :=
  {| columns := ["ID"; "Value"];
     rows := [[PyInt 1; PyInt 10]; [PyInt 2; PyInt 20]] |}.
Definition ledger_B : DataFrame :=
  {| columns := ["ID"; "Value"];
     rows := [[PyInt 1; PyInt 10]; [PyInt 2; PyInt 25]] |}.

(** Columns [x,a,b] against [a,b]: the second frame lacks [x]. *)
Definition shifted_A : DataFrame :=
  {| columns := ["x"; "a"; "b"]; rows := [[PyInt 0; PyInt 1; PyInt 2]] |}.
Definition shifted_B : DataFrame :=
  {| columns := ["a"; "b"]; rows := [[PyInt 1; PyInt 2]] |}.

(** Columns [a,b,c] against [c,a,b] with the same values. *)
Definition rotated_A : DataFrame :=
  {| columns := ["a"; "b"; "c"]; rows := [[PyInt 1; PyInt 2; PyInt 3]] |}.
Definition rotated_B : DataFrame :=
  {| columns := ["c"; "a"; "b"]; rows := [[PyInt 3; PyInt 1; PyInt 2]] |}.

(** 150 keyed rows on one side, none on the other. *)
Definition numbered (n : nat) : DataFrame :=
  {| columns := ["ID"]; rows := (fun i => [PyInt (Z.of_nat i)]) <$> seq 0 n |}.

(** Missing values against present ones. *)
Definition gaps_A : DataFrame :=
  {| columns := ["ID"; "c"]; rows := [[PyInt 1; PyNone]; [PyInt 2; NaN]] |}.
Definition gaps_B : DataFrame :=
  {| columns := ["ID"; "c"]; rows := [[PyInt 1; NaN]; [PyInt 2; PyStr "x"]] |}.

(** Two columns that differ in every row. *)
Definition zeros (n : nat) : DataFrame :=
  {| columns := ["p"; "q"]; rows := replicate n [PyInt 0; PyInt 0] |}.
Definition ones (n : nat) : DataFrame :=
  {| columns := ["p"; "q"]; rows := replicate n [PyInt 1; PyInt 1] |}.

End Scenarios.

(** ** The integer downcast of [optimize_dataframe] ([src/file_handler.py]) *)
Module Optimize.

(** The numpy integer types the function chooses from. *)
Inductive int_dtype : Type :=
| uint8 | uint16 | uint32 | uint64
| int8 | int16 | int32 | int64.

(** Lines 190-212: the type chosen for a column of dtype [int] without
    missing values, from its smallest and largest value. *)
Definition target_dtype (col_min col_max : Z) : int_dtype :=
  if bool_decide (col_min >= 0) then
    if bool_decide (col_max < 255) then uint8
    else if bool_decide (col_max < 65535) then uint16
    else if bool_decide (col_max < 4294967295) then uint32
    else uint64
  else
    if bool_decide (col_min > -128) && bool_decide (col_max < 127) then int8
    else if bool_decide (col_min > -32768) && bool_decide (col_max < 32767) then int16
    else if bool_decide (col_min > -2147483648) && bool_decide (col_max < 2147483647)
    then int32
    else int64.

Definition bits (t : int_dtype) : Z :=
  match t with
  | uint8 | int8 => 8
  | uint16 | int16 => 16
  | uint32 | int32 => 32
  | uint64 | int64 => 64
  end.

Definition signed (t : int_dtype) : bool :=
  match t with
  | uint8 | uint16 | uint32 | uint64 => false
  | int8 | int16 | int32 | int64 => true
  end.

(** [astype(t)] on one integer: numpy keeps the low [bits t] bits and
    reads them as unsigned or as two's complement. *)
Definition astype (t : int_dtype) (v : Z) : Z :=
  let m := 2 ^ bits t in
  if signed t then (v + m / 2) mod m - m / 2 else v mod m.

End Optimize.

(** ** [display_comparison_results] of [app.py] *)
Module Display.
Import Py Pandas.

(** The Streamlit calls the function makes, in order.  The two columns of
    the download row are laid out side by side; their calls are listed
    left column first.  [expander] opens the expander, which holds all the
    calls that follow it. *)
Inductive event : Type :=
| header (text : string)
| warning (text : string)
| success (text : string)
| subheader (text : string)
| write (args : list string)
| markdown (text : string)
| table_legend
| download_button (label data : string)
| dataframe (rows : list (string * Comparison.ValueDiff))
| expander (label : string).

Definition newline : string := String (ascii_of_nat 10) EmptyString.

(** [details.get(key)] on the dictionary [compare_sheets] stores under
    ["column_differences"], whose keys are ["missing_columns"],
    ["extra_columns"] and ["reordered_columns"] (lines 148-152 of
    [comparison.py]). *)
Definition details_get (key : string) (details : Comparison.ColumnDifferences)
    : option (list string) :=
  if bool_decide (key = "missing_columns") then Some (Comparison.missing_columns details)
  else if bool_decide (key = "extra_columns") then Some (Comparison.extra_columns details)
  else if bool_decide (key = "reordered_columns")
  then Some (Comparison.reordered_columns details)
  else None.

(** Truthiness of what [get] returns: [None] and the empty list are
    false. *)
Definition truthy_list (o : option (list string)) : bool :=
  match o with
  | Some (_ :: _) => true
  | Some [] | None => false
  end.

(** Lines 317-324, for one item of
    [error_details["column_differences"].items()]. *)
Definition column_section (item : string * Comparison.ColumnDifferences) : list event :=
  let sheet := fst item in
  let details := snd item in
  if Files.truthy_columns details then
    [subheader ("Column Differences in " +:+ sheet)]
    ++ (if truthy_list (details_get "missing" details) then
          [write ["Missing columns:"; join ", " (default [] (details_get "missing" details))]]
        else [])
    ++ (if truthy_list (details_get "extra" details) then
          [write ["Extra columns:"; join ", " (default [] (details_get "extra" details))]]
        else [])
    ++ (if truthy_list (details_get "reordered" details) then
          [write ["⚠️ Columns are in different order"]]
        else [])
  else [].

(** Lines 330-334: the records of all sheets, each tagged with its
    sheet. *)
Definition all_diffs (value_differences : gmap string (list Comparison.ValueDiff))
    : list (string * Comparison.ValueDiff) :=
  flat_map (fun item => (fun diff => (fst item, diff)) <$> snd item)
           (map_to_list value_differences).

(** Lines 326-346. *)
Definition value_section (value_differences : gmap string (list Comparison.ValueDiff))
    : list event :=
  if bool_decide (value_differences ≠ ∅) then
    [subheader "Value Differences"]
    ++ (if bool_decide (all_diffs value_differences ≠ []) then
          (warning <$> fst (App.displayed_value_diffs (all_diffs value_differences)))
          ++ [dataframe (snd (App.displayed_value_diffs (all_diffs value_differences)))]
        else [])
  else [].

(** Lines 306-346: the body of the "Detailed Error Analysis" expander. *)
Definition error_analysis (e : Files.ErrorDetails) : list event :=
  (if bool_decide (Files.missing_sheets e ≠ []) then
     [subheader "Missing Sheets"; write [join ", " (Files.missing_sheets e)]]
   else [])
  ++ (if bool_decide (Files.extra_sheets e ≠ []) then
        [subheader "Extra Sheets"; write [join ", " (Files.extra_sheets e)]]
      else [])
  ++ flat_map column_section (map_to_list (Files.column_differences e))
  ++ value_section (Files.value_differences e).

(** Line 304: [any(error_details.values())]. *)
Definition any_values (e : Files.ErrorDetails) : bool :=
  bool_decide (Files.missing_sheets e ≠ [])
  || bool_decide (Files.extra_sheets e ≠ [])
  || bool_decide (Files.column_differences e ≠ ∅)
  || bool_decide (Files.row_differences e ≠ ∅)
  || bool_decide (Files.value_differences e ≠ ∅).

(** [display_comparison_results], reading the four session-state
    entries [main] has set; [highlighted_excel] is [None] or the bytes of
    the highlighted workbook. *)
Definition display_comparison_results (summary_report detailed_report : list string)
    (error_details : Files.ErrorDetails) (highlighted_excel : option string)
    : list event :=
  if bool_decide (summary_report ≠ []) then
    [header "Summary of Differences"]
    ++ (warning <$> summary_report)
    ++ (if bool_decide (detailed_report ≠ []) then
          [download_button "Download Detailed Report" (join newline detailed_report)]
          ++ match highlighted_excel with
             | Some (String c bytes) =>
                 [download_button "Download Highlighted Excel Report" (String c bytes);
                  markdown "### Color Code Legend";
                  table_legend]
             | Some EmptyString | None =>
                 [warning "Highlighting only supported for Excel-Excel or CSV-CSV comparisons"]
             end
        else [])
    ++ (if any_values error_details then
          [expander "Detailed Error Analysis"] ++ error_analysis error_details
        else [])
  else [success "No differences found! The files are identical."].

End Display.

(** ** What the Excel branch merges for one sheet *)
Module Merge.
Import Py Pandas.

(** What the Excel branch of [compare_files] merges for one sheet name:
    the triple of [compare_sheets] on the two frames stored under that
    name, when both dictionaries hold it. *)
Definition sheet_result (data1 data2 : gmap string DataFrame) (sheet : string)
    : option Comparison.Report :=
  match data1 !! sheet, data2 !! sheet with
  | Some df1, Some df2 =>
      match Comparison.compare_sheets df1 df2 None Comparison.default_chunk_size with
      | Returns s => Some s
      | Raises _ => None
      end
  | _, _ => None
  end.

End Merge.

(** ** The value-difference block of [src/highlighting.py]

    Lines 209-318 of [highlight_differences_excel] and lines 547-656 of
    [highlight_differences_csv] are the same code, and the only place
    where [highlighting.py] reads [error_details["value_differences"]].
    The block reads the frame [df1] the highlighter has read again from
    the first file, the list [all_cols] of line 77 or 429, and the list
    of records; it assigns a fill and a comment to cells of the
    worksheet.  The Streamlit calls of [highlighting.py] are the
    [st.error] of lines 51, 58, 376, 415, 422 and 682, on a failed read
    or save: the block makes none.  The line numbers below are those of
    [highlight_differences_csv]. *)
Module Highlighter.
Import Py Pandas Comparison.

(** The four fills of lines 399-402. *)
Inductive fill : Type := RED_FILL | YELLOW_FILL | GREEN_FILL | BLUE_FILL.

(** Lines 624-629 and 646-651: [cell.fill = ..] and
    [cell.comment = Comment(text, author)] on the cell at [mark_row],
    [mark_column] of the worksheet. *)
Record mark : Type := {
  mark_row : nat;
  mark_column : nat;
  mark_fill : fill;
  comment_text : string;
  comment_author : string
}.

(** What the block leaves behind: its Streamlit calls and its cell
    assignments, both in order. *)
Record effects : Type := {
  calls : list Display.event;
  marks : list mark
}.

(** The block runs to its end, or line 599 raises [IndexError]. *)
Inductive result : Type :=
| Completes (e : effects)
| RaisesIndexError.

(** [d[k] = v] and [d.get(k)] on an insertion-ordered dictionary with
    [str] keys. *)
Fixpoint setitem {V} (k : string) (v : V) (d : list (string * V)) : list (string * V) :=
  match d with
  | [] => [(k, v)]
  | (k', v') :: d' =>
      if bool_decide (k = k') then (k', v) :: d'
      else (k', v') :: setitem k v d'
  end.

Fixpoint get {V} (k : string) (d : list (string * V)) : option V :=
  match d with
  | [] => None
  | (k', v') :: d' => if bool_decide (k = k') then Some v' else get k d'
  end.

(** Line 438: [{col: i+1 for i, col in enumerate(all_cols)}]. *)
Fixpoint col_indices_from (i : nat) (all_cols : list string) (m : gmap string nat)
    : gmap string nat :=
  match all_cols with
  | [] => m
  | col :: cols => col_indices_from (S i) cols (<[col := S i]> m)
  end.

Definition col_indices (all_cols : list string) : gmap string nat :=
  col_indices_from 0 all_cols ∅.

(** Lines 561-568 and 578: [str(key)], where [key] joins the items of
    the record's key dictionary, or is the record's row number. *)
Definition str_key (diff : ValueDiff) : string :=
  match at_ diff with
  | Key key => join "|" ((fun item => fst item +:+ "=" +:+ snd item) <$> key)
  | Row row => pretty row
  end.

(** Lines 559-585, for one record. *)
Definition add_diff (col_indices : gmap string nat)
    (diff_lookup : list (string * list (string * (string * string))))
    (diff : ValueDiff) : list (string * list (string * (string * string))) :=
  match col_indices !! column diff with
  | None => diff_lookup
  | Some _ =>
      setitem (str_key diff)
        (setitem (column diff) (value1 diff, value2 diff)
           (default [] (get (str_key diff) diff_lookup)))
        diff_lookup
  end.

Definition build_diff_lookup (col_indices : gmap string nat) (value_diffs : list ValueDiff)
    : list (string * list (string * (string * string))) :=
  fold_left (add_diff col_indices) value_diffs [].

(** [key in diff_lookup and col in diff_lookup[key]] *)
Definition has_entry (diff_lookup : list (string * list (string * (string * string))))
    (key col : string) : Prop :=
  ∃ cols, get key diff_lookup = Some cols ∧ is_Some (get col cols).

(** Lines 619-631 and 641-653: the loop over [cols.items()] for the row
    [row_idx] of the worksheet. *)
Definition mark_cells (col_indices : gmap string nat) (row_idx : nat)
    (cols : list (string * (string * string))) : list mark :=
  flat_map (fun item =>
      match col_indices !! fst item with
      | Some col_idx =>
          [ {| mark_row := row_idx; mark_column := col_idx; mark_fill := YELLOW_FILL;
               comment_text := "Value in file 1: " +:+ fst (snd item) +:+ Display.newline
                                 +:+ "Value in file 2: " +:+ snd (snd item);
               comment_author := "Comparison Ability" |} ]
      | None => []
      end)
    cols.

(** Line 589: some record carries a key dictionary. *)
Definition has_key (diff : ValueDiff) : bool :=
  match at_ diff with
  | Key _ => true
  | Row _ => false
  end.

(** Lines 592-596: the key columns of the first record that carries a
    key dictionary. *)
Fixpoint first_key_cols (value_diffs : list ValueDiff) : list string :=
  match value_diffs with
  | [] => []
  | diff :: value_diffs' =>
      match at_ diff with
      | Key key => fst <$> key
      | Row _ => first_key_cols value_diffs'
      end
  end.

(** Lines 598-599: [df1.columns[0]] raises on a frame without columns. *)
Definition key_cols (df1 : DataFrame) (value_diffs : list ValueDiff)
    : option (list string) :=
  match first_key_cols value_diffs with
  | [] =>
      match columns df1 with
      | [] => None
      | col :: _ => Some [col]
      end
  | col :: cols => Some (col :: cols)
  end.

(** Lines 605-612: the key string of each row of [df1], with the index
    of the last row that has it. *)
Definition row_key (df1 : DataFrame) (key_cols : list string) (row : list cell) : string :=
  join "|"
    ((fun col => col +:+ "=" +:+ str (getitem (columns df1) row col))
       <$> filter (fun col => col ∈ columns df1) key_cols).

Fixpoint key_to_row_from (df1 : DataFrame) (key_cols : list string) (i : nat)
    (rows : list (list cell)) (m : gmap string nat) : gmap string nat :=
  match rows with
  | [] => m
  | row :: rows' =>
      key_to_row_from df1 key_cols (S i) rows' (<[row_key df1 key_cols row := i]> m)
  end.

Definition key_to_row (df1 : DataFrame) (key_cols : list string) : gmap string nat :=
  key_to_row_from df1 key_cols 0 (rows df1) ∅.

(** Lines 615-631. *)
Definition key_based (col_indices key_to_row : gmap string nat)
    (diff_lookup : list (string * list (string * (string * string)))) : list mark :=
  flat_map (fun item =>
      match key_to_row !! fst item with
      | Some i => mark_cells col_indices (i + 2) (snd item)
      | None => []
      end)
    diff_lookup.

(** [int(key)] at line 638.  A key of [diff_lookup] is the decimal
    rendering of a row number, or joins items that each hold [=], or is
    empty; [int] raises [ValueError] on the last two and gives the row
    number on the first.  The other spellings [int] accepts (a sign,
    surrounding spaces, underscores) do not occur among these keys and
    are not modelled. *)
Fixpoint decimal (acc : nat) (s : string) : option nat :=
  match s with
  | EmptyString => Some acc
  | String c s' =>
      let n := nat_of_ascii c in
      if (48 <=? n)%nat && (n <=? 57)%nat then decimal (10 * acc + (n - 48)) s'
      else None
  end.

Definition int (key : string) : option nat :=
  match key with
  | EmptyString => None
  | String _ _ => decimal 0 key
  end.

(** Lines 635-656. *)
Definition row_based (col_indices : gmap string nat)
    (diff_lookup : list (string * list (string * (string * string)))) : list mark :=
  flat_map (fun item =>
      match int (fst item) with
      | Some row => mark_cells col_indices (row + 2) (snd item)
      | None => []
      end)
    diff_lookup.

(** The block, entered with the list stored for the sheet (lines
    549-656). *)
Definition highlight_value_differences (df1 : DataFrame) (all_cols : list string)
    (value_diffs : list ValueDiff) : result :=
  let value_diffs := Highlighting.limit_value_diffs value_diffs in
  let diff_lookup := build_diff_lookup (col_indices all_cols) value_diffs in
  if existsb has_key value_diffs then
    match key_cols df1 value_diffs with
    | Some key_cols =>
        Completes
          {| calls := [];
             marks := key_based (col_indices all_cols) (key_to_row df1 key_cols) diff_lookup
                      ++ row_based (col_indices all_cols) diff_lookup |}
    | None => RaisesIndexError
    end
  else
    Completes {| calls := []; marks := row_based (col_indices all_cols) diff_lookup |}.

End Highlighter.

(** * Properties *)

(** ** Facts about the Python and pandas fragments *)
Module PyFacts.
Import Py Pandas.

Lemma all2_refl {A} (p : A -> A -> bool) (xs : list A) :
  (forall x, p x x = true) -> all2 p xs xs = true.
Proof.
  intros Hp. induction xs as [|x xs IH]; simpl; [done|].
  by rewrite Hp, IH.
Qed.


Lemma cell_equiv_refl (c : cell) : cell_equiv c c = true.
Proof. destruct c; simpl; try done; by apply bool_decide_eq_true. Qed.

(** [T.equals(T)] holds for every frame. *)
Lemma equals_refl (T : DataFrame) : equals T T = true.
Proof.
  unfold equals. rewrite bool_decide_eq_true_2 by done. simpl.
  apply all2_refl. intros row. apply all2_refl, cell_equiv_refl.
Qed.

Lemma equals_columns (df1 df2 : DataFrame) :
  equals df1 df2 = true -> columns df1 = columns df2.
Proof.
  unfold equals. intros [H _]%andb_prop. by apply bool_decide_eq_true in H.
Qed.


(** A positive step neither raises nor empties the range. *)
Lemma range_positive (stop : nat) (step : Z) :
  0 < step -> range stop step = Returns (range_from stop 0 stop (Z.to_nat step)).
Proof.
  intros Hs. unfold range.
  rewrite bool_decide_eq_false_2 by lia.
  by rewrite bool_decide_eq_false_2 by lia.
Qed.

Lemma index_Some_elem (x : string) (l : list string) :
  x ∈ l -> is_Some (index x l).
Proof.
  induction l as [|y l IH]; simpl; [by intros ?%elem_of_nil|].
  intros Hx. case_bool_decide; [by eexists|].
  apply elem_of_cons in Hx as [->|Hx]; [done|].
  destruct (IH Hx) as [j ->]. by eexists.
Qed.

End PyFacts.

(** ** What [compare_sheets] returns *)
Module SheetFacts.
Import Py Pandas Comparison PyFacts.

(** Unfold the state transformers and split on their guards. *)
Ltac loggers :=
  unfold log_value_differences, log_missing_rows, log_extra_rows,
    structural_report, log_row_count, log_reordered_columns,
    log_extra_columns, log_missing_columns;
  repeat case_bool_decide; simpl.

(** Rewrite with the equations the false guards leave behind. *)
Ltac guards :=
  repeat match goal with
    | H : @eq (gset _) _ ∅ |- _ => rewrite H; clear H
    | H : @eq (list _) _ [] |- _ => rewrite H; clear H
    | H : @eq Z _ 0 |- _ => rewrite H; clear H
    end;
  rewrite ?elements_empty.

Lemma filter_none {A} (P : A -> Prop) `{forall x, Decision (P x)} (l : list A) :
  (forall x, ¬ P x) -> filter P l = [].
Proof.
  intros HP. induction l as [|x l IH]; [done|].
  by rewrite filter_cons_False.
Qed.

Lemma reordered_cols_same_columns (df1 df2 : DataFrame) :
  columns df1 = columns df2 -> reordered_cols df1 df2 = [].
Proof.
  intros Heq. unfold reordered_cols. rewrite <- Heq.
  apply filter_none. by intros col [_ ?].
Qed.

(** The error details after the column and row-count checks. *)
Lemma structural_error_details (df1 df2 : DataFrame) :
  error_details (structural_report df1 df2) =
    {| column_differences :=
         {| missing_columns := elements (missing_cols df1 df2);
            extra_columns := elements (extra_cols df1 df2);
            reordered_columns := reordered_cols df1 df2 |};
       row_differences :=
         {| count_diff := row_diff df1 df2; missing_rows := []; extra_rows := [] |};
       value_differences := [] |}.
Proof.
  loggers;
    try match goal with
      | H : columns _ = columns _ |- _ => apply reordered_cols_same_columns in H
      end;
    guards; reflexivity.
Qed.

Lemma log_value_differences_details (v : list ValueDiff) (r : Report) :
  value_differences (error_details r) = [] ->
  error_details (log_value_differences v r) =
    {| column_differences := column_differences (error_details r);
       row_differences := row_differences (error_details r);
       value_differences := v |}.
Proof.
  intros Hr. destruct r as [d s [cd rd vd]]. simpl in Hr. subst vd.
  loggers; guards; reflexivity.
Qed.

Lemma log_rows_details (df1 df2 : DataFrame) (key_columns : list string) (r : Report) :
  missing_rows (row_differences (error_details r)) = [] ->
  extra_rows (row_differences (error_details r)) = [] ->
  error_details (log_extra_rows df1 df2 key_columns
                  (log_missing_rows df1 df2 key_columns r)) =
    {| column_differences := column_differences (error_details r);
       row_differences :=
         {| count_diff := count_diff (row_differences (error_details r));
            missing_rows :=
              key_dict key_columns <$> take 100 (elements (missing_keys df1 df2 key_columns));
            extra_rows :=
              key_dict key_columns <$> take 100 (elements (extra_keys df1 df2 key_columns)) |};
       value_differences := value_differences (error_details r) |}.
Proof.
  destruct r as [d s [cd [n mr er] vd]]. simpl. intros -> ->.
  loggers; guards; reflexivity.
Qed.

Lemma positional_error_details (df1 df2 : DataFrame) (v : list ValueDiff) :
  error_details (positional_report df1 df2 v) =
    {| column_differences :=
         {| missing_columns := elements (missing_cols df1 df2);
            extra_columns := elements (extra_cols df1 df2);
            reordered_columns := reordered_cols df1 df2 |};
       row_differences :=
         {| count_diff := row_diff df1 df2; missing_rows := []; extra_rows := [] |};
       value_differences := v |}.
Proof.
  unfold positional_report. rewrite log_value_differences_details;
    by rewrite structural_error_details.
Qed.

Lemma keyed_error_details (df1 df2 : DataFrame) (key_columns : list string)
    (v : list ValueDiff) :
  error_details (keyed_report df1 df2 key_columns v) =
    {| column_differences :=
         {| missing_columns := elements (missing_cols df1 df2);
            extra_columns := elements (extra_cols df1 df2);
            reordered_columns := reordered_cols df1 df2 |};
       row_differences :=
         {| count_diff := row_diff df1 df2;
            missing_rows :=
              key_dict key_columns <$> take 100 (elements (missing_keys df1 df2 key_columns));
            extra_rows :=
              key_dict key_columns <$> take 100 (elements (extra_keys df1 df2 key_columns)) |};
       value_differences := v |}.
Proof.
  unfold keyed_report.
  rewrite log_value_differences_details;
    rewrite log_rows_details; by rewrite structural_error_details.
Qed.

Lemma key_columns_missing_error_details (df1 df2 : DataFrame)
    (key_columns : list string) :
  error_details (key_columns_missing_report df1 df2 key_columns) =
    error_details (structural_report df1 df2).
Proof. reflexivity. Qed.

Lemma key_columns_missing_with_error_details (repr : list string -> string)
    (df1 df2 : DataFrame) (key_columns : list string) :
  error_details (key_columns_missing_report_with repr df1 df2 key_columns) =
    error_details (structural_report df1 df2).
Proof. reflexivity. Qed.

(** The shape of every result of [compare_sheets]. *)
Lemma compare_sheets_inv (df1 df2 : DataFrame) (key_columns : option (list string))
    (chunk_size : Z) (r : Report) :
  compare_sheets df1 df2 key_columns chunk_size = Returns r ->
  (equals df1 df2 = true ∧ r = empty_report)
  ∨ (equals df1 df2 = false ∧
     ((truthy key_columns = None ∧
       ∃ v, positional_value_diffs df1 df2 chunk_size = Returns v
            ∧ r = positional_report df1 df2 v)
      ∨ (∃ ks, truthy key_columns = Some ks ∧
           ((key_columns_present df1 df2 ks = true ∧
             ∃ v, keyed_value_diffs df1 df2 ks chunk_size = Returns v
                  ∧ r = keyed_report df1 df2 ks v)
            ∨ (key_columns_present df1 df2 ks = false ∧
               r = key_columns_missing_report df1 df2 ks))))).
Proof.
  unfold compare_sheets, compare_sheets_with. destruct (equals df1 df2) eqn:He.
  { intros [= <-]. by left. }
  intros H. right. split; [done|].
  destruct (truthy key_columns) as [ks|] eqn:Hk.
  - right. exists ks. split; [done|].
    destruct (key_columns_present df1 df2 ks) eqn:Hp.
    + left. split; [done|].
      destruct (keyed_value_diffs df1 df2 ks chunk_size) as [v|e]; simpl in H; [|done].
      injection H as <-. by exists v.
    + right. split; [done|]. by injection H as <-.
  - left. split; [done|].
    destruct (positional_value_diffs df1 df2 chunk_size) as [v|e]; simpl in H; [|done].
    injection H as <-. by exists v.
Qed.

(** With a positive chunk size both loops run to completion. *)
Lemma positional_value_diffs_returns (df1 df2 : DataFrame) (chunk_size : Z) :
  0 < chunk_size -> ∃ v, positional_value_diffs df1 df2 chunk_size = Returns v.
Proof.
  intros Hc. unfold positional_value_diffs.
  rewrite range_positive by done. simpl. by eexists.
Qed.

Lemma keyed_value_diffs_returns (df1 df2 : DataFrame) (key_columns : list string)
    (chunk_size : Z) :
  0 < chunk_size -> ∃ v, keyed_value_diffs df1 df2 key_columns chunk_size = Returns v.
Proof.
  intros Hc. unfold keyed_value_diffs.
  rewrite range_positive by done. simpl. by eexists.
Qed.

Lemma compare_sheets_returns (df1 df2 : DataFrame) (key_columns : option (list string))
    (chunk_size : Z) :
  0 < chunk_size -> ∃ r, compare_sheets df1 df2 key_columns chunk_size = Returns r.
Proof.
  intros Hc. unfold compare_sheets, compare_sheets_with.
  destruct (equals df1 df2); [by eexists|].
  destruct (truthy key_columns) as [ks|].
  - destruct (key_columns_present df1 df2 ks); [|by eexists].
    destruct (keyed_value_diffs_returns df1 df2 ks chunk_size Hc) as [v ->].
    simpl. by eexists.
  - destruct (positional_value_diffs_returns df1 df2 chunk_size Hc) as [v ->].
    simpl. by eexists.
Qed.

End SheetFacts.

(** ** The fast path, the column checks and the key-column check *)
Module SheetClaims.
Import Py Pandas Comparison PyFacts SheetFacts Scenarios.

(** C4.  Comparing a frame with itself returns the empty triple at once,
    whatever [key_columns] and [chunk_size] are: no missing, extra or
    reordered columns, a zero [count_diff], no missing or extra rows, no
    value differences, and empty detailed and summary reports. *)
Theorem compare_sheets_identity (T : DataFrame) (key_columns : option (list string))
    (chunk_size : Z) :
  compare_sheets T T key_columns chunk_size =
    Returns
      {| detailed_report := [];
         summary_report := [];
         error_details :=
           {| column_differences :=
                {| missing_columns := []; extra_columns := []; reordered_columns := [] |};
              row_differences :=
                {| count_diff := 0; missing_rows := []; extra_rows := [] |};
              value_differences := [] |} |}.
Proof. unfold compare_sheets, compare_sheets_with. by rewrite equals_refl. Qed.

(** The column comparison of every returned triple. *)
Lemma compare_sheets_column_differences (df1 df2 : DataFrame)
    (key_columns : option (list string)) (chunk_size : Z) (r : Report) :
  compare_sheets df1 df2 key_columns chunk_size = Returns r ->
  equals df1 df2 = false ->
  column_differences (error_details r) =
    {| missing_columns := elements (missing_cols df1 df2);
       extra_columns := elements (extra_cols df1 df2);
       reordered_columns := reordered_cols df1 df2 |}.
Proof.
  intros Hr He.
  apply compare_sheets_inv in Hr as [[Ht _]|[_ Hr]]; [congruence|].
  destruct Hr as [[_ (v & _ & ->)]|(ks & _ & [[_ (v & _ & ->)]|[_ ->]])].
  - by rewrite positional_error_details.
  - by rewrite keyed_error_details.
  - by rewrite key_columns_missing_error_details, structural_error_details.
Qed.

Lemma reordered_cols_elem (df1 df2 : DataFrame) (col : string) :
  col ∈ reordered_cols df1 df2 ↔
    col ∈ columns df1 ∧ col ∈ columns df2
    ∧ index col (columns df1) ≠ index col (columns df2).
Proof.
  unfold reordered_cols, common_cols, df_cols.
  rewrite list_elem_of_filter, elem_of_intersection, !elem_of_list_to_set.
  tauto.
Qed.

(** C1, as the code has it.  For a positive chunk size [compare_sheets]
    returns, and [reordered_columns] lists, in the order of the first
    frame, the columns present in both frames whose position in the
    first frame's full column list differs from their position in the
    second frame's full column list. *)
Theorem reordered_columns_by_absolute_index (df1 df2 : DataFrame)
    (key_columns : option (list string)) (chunk_size : Z) :
  0 < chunk_size ->
  ∃ r, compare_sheets df1 df2 key_columns chunk_size = Returns r
       ∧ reordered_columns (column_differences (error_details r))
         = filter (fun col => col ∈ common_cols df1 df2
                              ∧ index col (columns df1) ≠ index col (columns df2))
                  (columns df1)
       ∧ ∀ col, col ∈ reordered_columns (column_differences (error_details r)) ↔
           col ∈ columns df1 ∧ col ∈ columns df2
           ∧ index col (columns df1) ≠ index col (columns df2).
Proof.
  intros Hc.
  destruct (compare_sheets_returns df1 df2 key_columns chunk_size Hc) as [r Hr].
  exists r. split; [done|].
  assert (reordered_columns (column_differences (error_details r))
          = reordered_cols df1 df2) as ->.
  { destruct (equals df1 df2) eqn:He.
    - unfold compare_sheets, compare_sheets_with in Hr. rewrite He in Hr. injection Hr as <-.
      simpl. symmetry. by apply reordered_cols_same_columns, equals_columns.
    - by rewrite (compare_sheets_column_differences _ _ _ _ _ Hr He). }
  split; [done|]. apply reordered_cols_elem.
Qed.

(** The theorem at columns [a,b,c] against [c,a,b]: all three columns
    are reported. *)
Lemma reordered_columns_by_absolute_index_rotated :
  ∃ r, compare_sheets rotated_A rotated_B None default_chunk_size = Returns r
       ∧ reordered_columns (column_differences (error_details r)) = ["a"; "b"; "c"]
       ∧ ∀ col, col ∈ reordered_columns (column_differences (error_details r)) ↔
           col ∈ columns rotated_A ∧ col ∈ columns rotated_B
           ∧ index col (columns rotated_A) ≠ index col (columns rotated_B).
Proof.
  destruct (reordered_columns_by_absolute_index rotated_A rotated_B None
              default_chunk_size) as (r & Hr & Hl & Hiff).
  { unfold default_chunk_size. lia. }
  exists r. split; [exact Hr|]. split; [|exact Hiff].
  rewrite Hl. vm_compute. reflexivity.
Defined.

(** C1 as stated fails.  With columns [x,a,b] against [a,b] the common
    columns keep their relative order, so the rule of the specification
    flags nothing, yet [compare_sheets] reports both [a] and [b]. *)
Lemma reordered_columns_shifted_by_missing_column :
  Spec.relative_reordered shifted_A shifted_B = []
  ∧ ∃ r, compare_sheets shifted_A shifted_B None default_chunk_size = Returns r
         ∧ reordered_columns (column_differences (error_details r)) = ["a"; "b"].
Proof. split; [by vm_compute|]. eexists. split; by vm_compute. Qed.

Lemma key_columns_present_true (df1 df2 : DataFrame) (ks : list string) :
  key_columns_present df1 df2 ks = true ↔
    ∀ col, col ∈ ks -> col ∈ columns df1 ∧ col ∈ columns df2.
Proof.
  unfold key_columns_present.
  rewrite andb_true_iff, !forallb_forall. split.
  - intros [H1 H2] col Hin%list_elem_of_In. split.
    + by eapply bool_decide_eq_true_1, H1.
    + by eapply bool_decide_eq_true_1, H2.
  - intros H. split; intros col Hin%list_elem_of_In;
      apply bool_decide_eq_true_2; by apply H.
Qed.

Lemma key_columns_present_false (df1 df2 : DataFrame) (ks : list string) (col : string) :
  col ∈ ks -> col ∉ columns df1 ∨ col ∉ columns df2 ->
  key_columns_present df1 df2 ks = false.
Proof.
  intros Hin Hmiss. apply not_true_is_false. intros Hp.
  destruct (proj1 (key_columns_present_true df1 df2 ks) Hp col Hin). tauto.
Qed.

(** C3, as the code has it.  [repr] is Python's [repr] on lists of
    [str].  When the frames are not identical, the key list is non-empty
    and some key column is absent from either frame, [compare_sheets]
    returns for every chunk size; the detailed report ends with the line
    that shows, with [repr], the list of exactly the key columns that
    are absent from a frame, in the order of [key_columns]; the summary
    ends with the line saying rows could not be compared; no value
    difference and no missing or extra row is recorded; what precedes
    in the reports and the column and row-count entries are those of
    the column and row-count checks. *)
Theorem key_columns_not_found (repr : list string -> string) (df1 df2 : DataFrame)
    (k : string) (ks : list string) (chunk_size : Z) (col : string) :
  equals df1 df2 = false ->
  col ∈ k :: ks ->
  col ∉ columns df1 ∨ col ∉ columns df2 ->
  ∃ r, compare_sheets_with repr df1 df2 (Some (k :: ks)) chunk_size = Returns r
    ∧ detailed_report r =
        (detailed_report (structural_report df1 df2) ++
         ["Key columns not found in both dataframes: "
            +:+ repr (missing_key_cols df1 df2 (k :: ks))])%list
    ∧ missing_key_cols df1 df2 (k :: ks) =
        filter (fun c => c ∉ columns df1 ∨ c ∉ columns df2) (k :: ks)
    ∧ (∀ c, c ∈ missing_key_cols df1 df2 (k :: ks) ↔
            c ∈ k :: ks ∧ (c ∉ columns df1 ∨ c ∉ columns df2))
    ∧ summary_report r =
        (summary_report (structural_report df1 df2) ++
         ["Unable to compare rows: key columns missing"])%list
    ∧ value_differences (error_details r) = []
    ∧ missing_rows (row_differences (error_details r)) = []
    ∧ extra_rows (row_differences (error_details r)) = []
    ∧ column_differences (error_details r) =
        {| missing_columns := elements (missing_cols df1 df2);
           extra_columns := elements (extra_cols df1 df2);
           reordered_columns := reordered_cols df1 df2 |}
    ∧ count_diff (row_differences (error_details r)) =
        Z.of_nat (len df1) - Z.of_nat (len df2).
Proof.
  intros He Hin Hmiss.
  exists (key_columns_missing_report_with repr df1 df2 (k :: ks)).
  split.
  { unfold compare_sheets_with. rewrite He. simpl truthy. cbv iota.
    by rewrite (key_columns_present_false _ _ _ col Hin Hmiss). }
  split; [done|]. split; [done|]. split.
  { intros c. unfold missing_key_cols. rewrite list_elem_of_filter. tauto. }
  split; [done|].
  rewrite key_columns_missing_with_error_details, structural_error_details. simpl.
  done.
Qed.

(** The theorem at the frames of scenario 2 with the key columns [ID]
    and [Region], with the [repr] of ASCII names: the line names
    [Region] alone. *)
Lemma key_columns_not_found_witness :
  ∃ r, compare_sheets ledger_A ledger_B (Some ["ID"; "Region"]) 0 = Returns r
    ∧ detailed_report r = ["Key columns not found in both dataframes: ['Region']"]
    ∧ summary_report r = ["Unable to compare rows: key columns missing"]
    ∧ value_differences (error_details r) = []
    ∧ missing_rows (row_differences (error_details r)) = []
    ∧ extra_rows (row_differences (error_details r)) = []
    ∧ count_diff (row_differences (error_details r)) = 0.
Proof.
  destruct (key_columns_not_found repr_list ledger_A ledger_B "ID" ["Region"] 0 "Region")
    as (r & Hr & Hd & _ & _ & Hs & Hv & Hm & Hx & _ & Hn).
  - vm_compute. reflexivity.
  - apply elem_of_cons. right. apply elem_of_cons. left. reflexivity.
  - left. vm_compute. intros H. apply list_elem_of_In in H. simpl in H.
    destruct H as [H|[H|[]]]; discriminate H.
  - exists r. split; [exact Hr|].
    split; [rewrite Hd; vm_compute; reflexivity|].
    split; [rewrite Hs; vm_compute; reflexivity|].
    split; [exact Hv|]. split; [exact Hm|]. split; [exact Hx|].
    rewrite Hn. vm_compute. reflexivity.
Defined.

(** The line the witness produces. *)
Example absent_key_column_line :
  compare_sheets ledger_A ledger_B (Some ["ID"; "Region"]) 0 =
    Returns
      {| detailed_report := ["Key columns not found in both dataframes: ['Region']"];
         summary_report := ["Unable to compare rows: key columns missing"];
         error_details := empty_error_details |}.
Proof. vm_compute. reflexivity. Qed.

(** C3 as stated fails on the fast path.  A frame compared with itself
    under a key column it does not have returns the empty triple; the
    absent key column is not reported. *)
Lemma key_columns_not_reported_when_identical :
  ("Region" ∉ columns ledger_A)
  ∧ compare_sheets ledger_A ledger_A (Some ["Region"]) default_chunk_size
    = Returns empty_report
  ∧ detailed_report empty_report = []
  ∧ summary_report empty_report = [].
Proof.
  split; [|by vm_compute].
  intros H. apply list_elem_of_In in H. simpl in H.
  destruct H as [H|[H|[]]]; discriminate H.
Qed.

(** C5.  Scenario 2 with [key_columns=["ID"]]: one value difference, at
    key [{ID: 2}] in column [Value], from ["20"] to ["25"]; no column,
    row-count or missing/extra-row differences. *)
Theorem scenario_two_keyed :
  compare_sheets ledger_A ledger_B (Some ["ID"]) default_chunk_size =
    Returns
      {| detailed_report := ["Value differences: 1"];
         summary_report := ["Value differences: 1"];
         error_details :=
           {| column_differences :=
                {| missing_columns := []; extra_columns := []; reordered_columns := [] |};
              row_differences :=
                {| count_diff := 0; missing_rows := []; extra_rows := [] |};
              value_differences :=
                [ {| at_ := Key [("ID", "2")]; column := "Value";
                     value1 := "20"; value2 := "25" |} ] |} |}.
Proof. vm_compute. reflexivity. Qed.

End SheetClaims.

(** ** [compare_files] *)
Module FileClaims.
Import Py Pandas PyFacts SheetFacts Files.

(** C9.  When the two inputs are of different kinds, [compare_files]
    returns at once: both reports hold the single type-mismatch line and
    every category of [error_details] is empty. *)
Theorem compare_files_type_mismatch (data1 data2 : FileData) :
  type data1 ≠ type data2 ->
  compare_files data1 data2 =
    Returns
      {| detailed_report :=
           ["File types are different: " +:+ type_str data1 +:+ " vs " +:+ type_str data2];
         summary_report :=
           ["File types are different: " +:+ type_str data1 +:+ " vs " +:+ type_str data2];
         error_details :=
           {| missing_sheets := []; extra_sheets := [];
              column_differences := ∅; row_differences := ∅;
              value_differences := ∅ |} |}.
Proof.
  intros Ht. unfold compare_files. by rewrite bool_decide_eq_true_2.
Qed.

Lemma compare_files_type_mismatch_witness :
  compare_files (CsvFile Scenarios.ledger_A)
                (ExcelFile ["Sheet1"] {[ "Sheet1" := Scenarios.ledger_B ]}) =
    Returns
      {| detailed_report := ["File types are different: csv vs excel"];
         summary_report := ["File types are different: csv vs excel"];
         error_details :=
           {| missing_sheets := []; extra_sheets := [];
              column_differences := ∅; row_differences := ∅;
              value_differences := ∅ |} |}.
Proof.
  apply (compare_files_type_mismatch (CsvFile Scenarios.ledger_A)
           (ExcelFile ["Sheet1"] {[ "Sheet1" := Scenarios.ledger_B ]})).
  simpl. discriminate.
Defined.









End FileClaims.

(** ** The chunk loops cover every row and every key once *)
Module ChunkFacts.
Import Py Pandas Comparison PyFacts SheetFacts.
Local Open Scope list_scope.

Lemma range_from_done (fuel start stop step : nat) :
  (stop <= start)%nat -> range_from fuel start stop step = [].
Proof.
  intros Hle. destruct fuel as [|fuel]; simpl; [done|].
  destruct (Nat.ltb_spec start stop); [lia|done].
Qed.

Section FlatMap.
Context {A B : Type}.

Lemma flat_map_nil (l : list A) : flat_map (fun _ => @nil B) l = [].
Proof. by induction l. Qed.

Lemma flat_map_app_perm (f g : A -> list B) (l : list A) :
  flat_map (fun a => f a ++ g a) l ≡ₚ flat_map f l ++ flat_map g l.
Proof.
  induction l as [|a l IH]; simpl; [done|].
  rewrite IH. rewrite <- !(assoc_L (++)). f_equiv.
  rewrite !(assoc_L (++)). f_equiv. apply Permutation_app_comm.
Qed.
End FlatMap.

(** The keyed loop: the slices [keys_list[i:i+chunk_size]] taken at the
    chunk starts rebuild [keys_list]. *)
Lemma key_chunks_cover {K B} (f : K -> list B) (keys : list K) (step fuel start : nat) :
  (0 < step)%nat -> (length keys - start <= fuel)%nat ->
  flat_map (fun i => flat_map f (slice keys i step))
           (range_from fuel start (length keys) step)
  = flat_map f (drop start keys).
Proof.
  intros Hstep. revert start.
  induction fuel as [|fuel IH]; intros start Hfuel; simpl.
  { by rewrite drop_ge by lia. }
  destruct (Nat.ltb_spec start (length keys)) as [Hlt|Hge].
  - simpl. rewrite IH by lia. unfold slice.
    rewrite <- flat_map_app.
    by rewrite <- drop_drop, take_drop.
  - by rewrite drop_ge by lia.
Qed.

Lemma keyed_value_diffs_positive (df1 df2 : DataFrame) (key_columns : list string)
    (chunk_size : Z) :
  0 < chunk_size ->
  keyed_value_diffs df1 df2 key_columns chunk_size =
    Returns (flat_map (key_diffs df1 df2 key_columns)
                      (elements (common_keys df1 df2 key_columns))).
Proof.
  intros Hc. unfold keyed_value_diffs.
  rewrite range_positive by done. simpl. f_equal.
  rewrite key_chunks_cover by lia. by rewrite drop_0.
Qed.

(** The positional loop. *)
Lemma chunk_diffs_empty (df1 df2 : DataFrame) (i : nat) : chunk_diffs df1 df2 i i = [].
Proof. unfold chunk_diffs. rewrite Nat.sub_diag. simpl. apply flat_map_nil. Qed.

Lemma chunk_diffs_split (df1 df2 : DataFrame) (i m e : nat) :
  (i <= m)%nat -> (m <= e)%nat ->
  chunk_diffs df1 df2 i e ≡ₚ chunk_diffs df1 df2 i m ++ chunk_diffs df1 df2 m e.
Proof.
  intros Him Hme. unfold chunk_diffs.
  rewrite <- flat_map_app_perm.
  replace (e - i)%nat with ((m - i) + (e - m))%nat by lia.
  rewrite seq_app. replace (i + (m - i))%nat with m by lia.
  match goal with |- ?x ≡ₚ ?y => replace x with y; [done|] end.
  apply flat_map_ext. intros col. by rewrite flat_map_app.
Qed.

Lemma row_chunks_cover (df1 df2 : DataFrame) (stop step fuel start : nat) :
  (0 < step)%nat -> (start <= stop)%nat -> (stop - start <= fuel)%nat ->
  flat_map (fun i => chunk_diffs df1 df2 i (Nat.min (i + step) stop))
           (range_from fuel start stop step)
  ≡ₚ chunk_diffs df1 df2 start stop.
Proof.
  intros Hstep. revert start.
  induction fuel as [|fuel IH]; intros start Hle Hfuel; simpl.
  { replace start with stop by lia. by rewrite chunk_diffs_empty. }
  destruct (Nat.ltb_spec start stop) as [Hlt|Hge].
  - simpl. destruct (decide (start + step <= stop)%nat) as [Hin|Hout].
    + rewrite IH by lia. rewrite Nat.min_l by lia.
      symmetry. apply chunk_diffs_split; lia.
    + rewrite range_from_done by lia. simpl.
      rewrite Nat.min_r by lia. by rewrite app_nil_r.
  - replace start with stop by lia. by rewrite chunk_diffs_empty.
Qed.

Lemma positional_value_diffs_positive (df1 df2 : DataFrame) (chunk_size : Z) :
  0 < chunk_size ->
  ∃ v, positional_value_diffs df1 df2 chunk_size = Returns v
       ∧ v ≡ₚ chunk_diffs df1 df2 0 (Nat.min (len df1) (len df2)).
Proof.
  intros Hc. unfold positional_value_diffs.
  rewrite range_positive by done. simpl. eexists. split; [done|].
  apply row_chunks_cover; lia.
Qed.

(** One record per differing cell of the compared rows and columns. *)
Lemma chunk_diffs_elem (df1 df2 : DataFrame) (n : nat) (d : ValueDiff) :
  d ∈ chunk_diffs df1 df2 0 n ↔
    ∃ col idx, col ∈ common_cols df1 df2 ∧ (idx < n)%nat
               ∧ str (loc df1 idx col) ≠ str (loc df2 idx col)
               ∧ d = {| at_ := Row idx; column := col;
                        value1 := str (loc df1 idx col);
                        value2 := str (loc df2 idx col) |}.
Proof.
  unfold chunk_diffs. rewrite list_elem_of_In, in_flat_map. split.
  - intros (col & Hcol%list_elem_of_In%elem_of_elements & Hd).
    apply in_flat_map in Hd as (idx & Hidx%in_seq & Hd).
    case_bool_decide; [|done]. destruct Hd as [<-|[]].
    exists col, idx. repeat split; [done|lia|done].
  - intros (col & idx & Hcol & Hidx & Hne & ->).
    exists col. split; [by apply list_elem_of_In, elem_of_elements|].
    apply in_flat_map. exists idx. split; [apply in_seq; lia|].
    rewrite bool_decide_eq_true_2 by done. by left.
Qed.

Lemma key_diffs_elem (df1 df2 : DataFrame) (key_columns key : list string)
    (d : ValueDiff) :
  d ∈ key_diffs df1 df2 key_columns key ↔
    ∃ col, col ∈ common_cols df1 df2
      ∧ let val1 := normalize (getitem (columns df1)
                                 (build_dict df1 key_columns !!! key) col) in
        let val2 := normalize (getitem (columns df2)
                                 (build_dict df2 key_columns !!! key) col) in
        val1 ≠ val2
        ∧ d = {| at_ := Key (key_dict key_columns key); column := col;
                 value1 := val1; value2 := val2 |}.
Proof.
  unfold key_diffs. rewrite list_elem_of_In, in_flat_map. split.
  - intros (col & Hcol%list_elem_of_In%elem_of_elements & Hd).
    case_bool_decide; [|done]. destruct Hd as [<-|[]].
    exists col. by repeat split.
  - intros (col & Hcol & Hne & ->).
    exists col. split; [by apply list_elem_of_In, elem_of_elements|].
    rewrite bool_decide_eq_true_2 by done. by left.
Qed.

(** The reports depend on the list of value differences through its
    length only. *)
Lemma log_value_differences_perm (v1 v2 : list ValueDiff) (r : Report) :
  v1 ≡ₚ v2 ->
  detailed_report (log_value_differences v1 r) = detailed_report (log_value_differences v2 r)
  ∧ summary_report (log_value_differences v1 r) = summary_report (log_value_differences v2 r).
Proof.
  intros Hp. unfold log_value_differences.
  pose proof (Permutation_length Hp) as Hlen.
  repeat case_bool_decide; simpl; subst; rewrite ?Hlen; try done.
  - apply Permutation_nil_r in Hp. done.
  - symmetry in Hp. apply Permutation_nil_r in Hp. done.
Qed.

End ChunkFacts.

(** ** The value-difference block of the highlighter *)
Module HighlighterFacts.
Import Py Pandas Comparison Highlighter.
Local Open Scope list_scope.

(** *** The dictionaries *)

Lemma elem_of_setitem {V} (k k' : string) (v v' : V) (d : list (string * V)) :
  (k', v') ∈ setitem k v d -> (k' = k ∧ v' = v) ∨ (k', v') ∈ d.
Proof.
  induction d as [|[k0 v0] d IH]; simpl.
  - intros H%list_elem_of_singleton. injection H as -> ->. by left.
  - case_bool_decide as Hk.
    + rewrite !elem_of_cons. intros [[= -> ->]|H]; [by left|right; by right].
    + rewrite !elem_of_cons. intros [H|H]; [right; by left|].
      destruct (IH H) as [?|?]; [by left|right; by right].
Qed.

Lemma get_elem_of {V} (k : string) (v : V) (d : list (string * V)) :
  get k d = Some v -> (k, v) ∈ d.
Proof.
  induction d as [|[k0 v0] d IH]; simpl; [done|].
  case_bool_decide as Hk.
  - intros [= ->]. subst k0. left.
  - intros H. right. by apply IH.
Qed.

Lemma get_setitem_eq {V} (k : string) (v : V) (d : list (string * V)) :
  get k (setitem k v d) = Some v.
Proof.
  induction d as [|[k0 v0] d IH]; simpl.
  - by rewrite bool_decide_eq_true_2.
  - case_bool_decide as Hk; simpl.
    + by rewrite bool_decide_eq_true_2.
    + by rewrite bool_decide_eq_false_2.
Qed.

Lemma get_setitem_ne {V} (k k' : string) (v : V) (d : list (string * V)) :
  k' ≠ k -> get k' (setitem k v d) = get k' d.
Proof.
  intros Hne. induction d as [|[k0 v0] d IH]; simpl.
  - by rewrite bool_decide_eq_false_2.
  - case_bool_decide as Hk; simpl.
    + subst k0. by rewrite !bool_decide_eq_false_2.
    + case_bool_decide; [done|apply IH].
Qed.

Lemma get_is_Some_setitem {V} (k k' : string) (v : V) (d : list (string * V)) :
  is_Some (get k' d) -> is_Some (get k' (setitem k v d)).
Proof.
  intros H. destruct (decide (k' = k)) as [->|Hne].
  - rewrite get_setitem_eq. by eexists.
  - by rewrite get_setitem_ne.
Qed.

(** *** [int] on the keys of [diff_lookup] *)

Lemma decimal_equals_sign (s t : string) (acc : nat) :
  decimal acc (s +:+ "=" +:+ t) = None.
Proof.
  revert acc. induction s as [|c s IH]; intros acc; simpl; [done|].
  destruct (_ && _); [apply IH|done].
Qed.

Lemma int_decimal_None (key : string) : decimal 0 key = None -> int key = None.
Proof. by destruct key. Qed.

Lemma string_app_assoc (s t u : string) : (s +:+ t) +:+ u = s +:+ (t +:+ u).
Proof.
  induction s as [|c s IH]; [done|].
  change (String c ((s +:+ t) +:+ u) = String c (s +:+ (t +:+ u))). by rewrite IH.
Qed.

(** [int] raises on a string made of items that each hold [=]. *)
Lemma int_joined_items (parts : list string) :
  Forall (fun p => ∃ a b, p = a +:+ "=" +:+ b) parts ->
  int (join "|" parts) = None.
Proof.
  intros Hparts. destruct Hparts as [|p ps (a & b & ->) Hps]; [done|].
  apply int_decimal_None. unfold join. cbn [String.concat].
  destruct ps as [|q qs].
  - apply decimal_equals_sign.
  - rewrite !string_app_assoc. apply decimal_equals_sign.
Qed.

Lemma int_row_key (df1 : DataFrame) (kc : list string) (row : list cell) :
  int (row_key df1 kc row) = None.
Proof.
  unfold row_key. apply int_joined_items, Forall_fmap, Forall_forall.
  intros col _. simpl. by eexists _, _.
Qed.

(** [int] raises on the key string of a key dictionary. *)
Lemma int_key_string (key : dict) :
  int (join "|" ((fun item => fst item +:+ "=" +:+ snd item) <$> key)) = None.
Proof.
  destruct key as [|[k v] key]; [done|].
  apply int_decimal_None. unfold join. rewrite fmap_cons. cbn [String.concat fst snd].
  destruct (_ <$> key) as [|p ps].
  - apply decimal_equals_sign.
  - rewrite !string_app_assoc. apply decimal_equals_sign.
Qed.

Lemma pretty_N_char_digit (d : N) :
  (d < 10)%N -> nat_of_ascii (pretty_N_char d) = (48 + N.to_nat d)%nat.
Proof.
  intros Hd.
  assert (d = 0 ∨ d = 1 ∨ d = 2 ∨ d = 3 ∨ d = 4 ∨ d = 5 ∨ d = 6 ∨ d = 7 ∨ d = 8 ∨ d = 9)%N
    as H by lia.
  repeat (destruct H as [->|H]; [reflexivity|]). by subst d.
Qed.

Lemma decimal_pretty_N_go (x : N) :
  ∃ p : nat, forall (acc : nat) (s : string),
    decimal acc (pretty_N_go x s) = decimal (acc * p + N.to_nat x) s.
Proof.
  induction (N.lt_wf_0 x) as [x _ IH].
  assert (x = 0 ∨ 0 < x)%N as [->|Hx] by lia.
  - exists 1%nat. intros acc s. rewrite pretty_N_go_0. f_equal. simpl. lia.
  - destruct (IH (x `div` 10)%N) as [p Hp]; [by apply N.div_lt|].
    exists (10 * p)%nat. intros acc s.
    rewrite pretty_N_go_step by done. rewrite Hp. cbn [decimal]. cbv zeta.
    assert (x `mod` 10 < 10)%N as Hm by (by apply N.mod_lt).
    rewrite (pretty_N_char_digit _ Hm).
    pose proof (N.div_mod x 10 ltac:(done)) as Hdm.
    remember (x `mod` 10)%N as d eqn:Ed. remember (x `div` 10)%N as q eqn:Eq.
    clear Ed Eq Hp IH.
    destruct (Nat.leb_spec 48 (48 + N.to_nat d)); [|lia].
    destruct (Nat.leb_spec (48 + N.to_nat d) 57); [|lia].
    cbn [andb]. f_equal. lia.
Qed.

Lemma pretty_N_go_nonempty (x : N) (s : string) :
  s ≠ EmptyString -> pretty_N_go x s ≠ EmptyString.
Proof.
  revert s. induction (N.lt_wf_0 x) as [x _ IH]; intros s Hs.
  assert (x = 0 ∨ 0 < x)%N as [->|Hx] by lia.
  - by rewrite pretty_N_go_0.
  - rewrite pretty_N_go_step by done. apply IH; [by apply N.div_lt|done].
Qed.

(** [int(str(row))] is [row]. *)
Lemma int_pretty (row : nat) : int (pretty row) = Some row.
Proof.
  unfold pretty, pretty_nat, pretty, pretty_N.
  case_decide as H0.
  - assert (row = 0%nat) as -> by lia. reflexivity.
  - destruct (decimal_pretty_N_go (N.of_nat row)) as [p Hp].
    assert (0 < N.of_nat row)%N as Hpos by lia.
    pose proof (Hp 0%nat EmptyString) as Hd. simpl in Hd.
    rewrite Nat2N.id in Hd.
    destruct (pretty_N_go (N.of_nat row) EmptyString) as [|c s] eqn:Hgo.
    + exfalso. rewrite pretty_N_go_step in Hgo by done.
      by apply pretty_N_go_nonempty in Hgo.
    + unfold int. exact Hd.
Qed.

(** [int(key)] on the key of every record: the row number of a record
    of the positional scan, [ValueError] on a key dictionary. *)
Lemma int_str_key (d : ValueDiff) :
  int (str_key d) = match at_ d with Row row => Some row | Key _ => None end.
Proof.
  unfold str_key. destruct (at_ d) as [key|row];
    [apply int_key_string|apply int_pretty].
Qed.

(** *** [key_to_row] and [diff_lookup] *)

(** Every key of [key_to_row] is the key string of the row it maps to. *)
Lemma key_to_row_from_lookup (df1 : DataFrame) (kc : list string) (rs : list (list cell))
    (i0 : nat) (m : gmap string nat) (key : string) (i : nat) :
  key_to_row_from df1 kc i0 rs m !! key = Some i ->
  m !! key = Some i
  ∨ ∃ row, (i0 <= i)%nat ∧ rs !! (i - i0)%nat = Some row ∧ row_key df1 kc row = key.
Proof.
  revert i0 m. induction rs as [|r rs IH]; intros i0 m; simpl; [by left|].
  intros [H|(row & Hle & Hrow & Hkey)]%IH.
  - destruct (decide (row_key df1 kc r = key)) as [<-|Hne].
    + rewrite lookup_insert_eq in H. injection H as <-.
      right. exists r. rewrite Nat.sub_diag. by repeat split.
    + rewrite lookup_insert_ne in H by done. by left.
  - right. exists row. split; [lia|]. split; [|done].
    replace (i - i0)%nat with (S (i - S i0)) by lia. done.
Qed.

Lemma key_to_row_lookup (df1 : DataFrame) (kc : list string) (key : string) (i : nat) :
  key_to_row df1 kc !! key = Some i ->
  ∃ row, rows df1 !! i = Some row ∧ row_key df1 kc row = key.
Proof.
  unfold key_to_row. intros [H|(row & _ & Hrow & Hkey)]%key_to_row_from_lookup.
  - by rewrite lookup_empty in H.
  - exists row. by rewrite Nat.sub_0_r in Hrow.
Qed.

(** Every entry of [diff_lookup] comes from a record of the list. *)
Lemma fold_add_diff_records (P : string -> string -> string * string -> Prop)
    (ci : gmap string nat) (v : list ValueDiff) :
  (forall d, d ∈ v -> P (str_key d) (column d) (value1 d, value2 d)) ->
  forall acc,
  (forall key cols col vals, (key, cols) ∈ acc -> (col, vals) ∈ cols -> P key col vals) ->
  forall key cols col vals,
  (key, cols) ∈ fold_left (add_diff ci) v acc -> (col, vals) ∈ cols -> P key col vals.
Proof.
  induction v as [|x v IH]; intros Hv acc Hacc; simpl; [exact Hacc|].
  apply IH.
  { intros d Hd. apply Hv. by right. }
  intros key cols col vals. unfold add_diff.
  destruct (ci !! column x) as [j|]; [|exact (Hacc key cols col vals)].
  intros [[-> ->]|Hin]%elem_of_setitem.
  - intros [[-> ->]|Hin]%elem_of_setitem.
    + apply Hv. left.
    + destruct (get (str_key x) acc) as [cols0|] eqn:Hget; simpl in Hin.
      * apply get_elem_of in Hget. by eapply Hacc.
      * by apply elem_of_nil in Hin.
  - intros Hc. exact (Hacc key cols col vals Hin Hc).
Qed.

Lemma diff_lookup_from_record (ci : gmap string nat) (v : list ValueDiff)
    (key col : string) (cols : list (string * (string * string)))
    (vals : string * string) :
  (key, cols) ∈ build_diff_lookup ci v -> (col, vals) ∈ cols ->
  ∃ d, d ∈ v ∧ str_key d = key ∧ column d = col ∧ (value1 d, value2 d) = vals.
Proof.
  unfold build_diff_lookup.
  apply (fold_add_diff_records
           (fun key col vals =>
              ∃ d, d ∈ v ∧ str_key d = key ∧ column d = col
                   ∧ (value1 d, value2 d) = vals)).
  - intros d Hd. by exists d.
  - intros ???? H. by apply elem_of_nil in H.
Qed.

(** Conversely every record whose column the worksheet shows has its
    entry in [diff_lookup]. *)
Lemma add_diff_has_entry (ci : gmap string nat)
    (table : list (string * list (string * (string * string))))
    (x : ValueDiff) (key col : string) :
  has_entry table key col -> has_entry (add_diff ci table x) key col.
Proof.
  intros (cols & Hget & Hcol). unfold add_diff.
  destruct (ci !! column x) as [j|]; [|by exists cols].
  destruct (decide (key = str_key x)) as [->|Hne].
  - rewrite Hget. simpl. eexists. rewrite get_setitem_eq. split; [done|].
    by apply get_is_Some_setitem.
  - exists cols. by rewrite get_setitem_ne.
Qed.

Lemma add_diff_shows (ci : gmap string nat)
    (table : list (string * list (string * (string * string)))) (x : ValueDiff) :
  is_Some (ci !! column x) -> has_entry (add_diff ci table x) (str_key x) (column x).
Proof.
  intros [j Hj]. unfold add_diff. rewrite Hj.
  eexists. rewrite get_setitem_eq. split; [done|]. rewrite get_setitem_eq. by eexists.
Qed.

Lemma fold_add_diff_has_entry (ci : gmap string nat) (v : list ValueDiff)
    (table : list (string * list (string * (string * string)))) (key col : string) :
  has_entry table key col -> has_entry (fold_left (add_diff ci) v table) key col.
Proof.
  revert table. induction v as [|x v IH]; intros table H; simpl; [done|].
  by apply IH, add_diff_has_entry.
Qed.

Lemma build_diff_lookup_shows (ci : gmap string nat) (v : list ValueDiff) (d : ValueDiff) :
  d ∈ v -> is_Some (ci !! column d) ->
  has_entry (build_diff_lookup ci v) (str_key d) (column d).
Proof.
  unfold build_diff_lookup. generalize (@nil (string * list (string * (string * string)))).
  induction v as [|x v IH]; intros table Hd Hc; [by apply elem_of_nil in Hd|].
  simpl. apply elem_of_cons in Hd as [->|Hd].
  - by apply fold_add_diff_has_entry, add_diff_shows.
  - by apply IH.
Qed.

Lemma mark_cells_marks (ci : gmap string nat) (row_idx : nat)
    (cols : list (string * (string * string))) (col : string) (j : nat) :
  is_Some (get col cols) -> ci !! col = Some j ->
  ∃ m, m ∈ mark_cells ci row_idx cols ∧ mark_row m = row_idx ∧ mark_column m = j
       ∧ mark_fill m = YELLOW_FILL.
Proof.
  intros [vals Hget%get_elem_of] Hj.
  eexists {| mark_row := row_idx; mark_column := j; mark_fill := YELLOW_FILL |}.
  split; [|done].
  unfold mark_cells. rewrite list_elem_of_In, in_flat_map.
  exists (col, vals). split; [by apply list_elem_of_In|]. simpl. rewrite Hj. by left.
Qed.

(** *** The cell assignments *)

(** What a mark of the block is when it comes from the record [d]: a
    yellow fill on the cell of the record's column, with the comment
    that states the record's two values. *)
Lemma mark_cells_from_entry (ci : gmap string nat) (row_idx : nat)
    (cols : list (string * (string * string))) (m : mark) :
  m ∈ mark_cells ci row_idx cols ->
  ∃ col vals, (col, vals) ∈ cols
    ∧ ci !! col = Some (mark_column m)
    ∧ mark_row m = row_idx
    ∧ mark_fill m = YELLOW_FILL
    ∧ comment_text m = "Value in file 1: " +:+ fst vals +:+ Display.newline
                         +:+ "Value in file 2: " +:+ snd vals
    ∧ comment_author m = "Comparison Ability".
Proof.
  unfold mark_cells. rewrite list_elem_of_In, in_flat_map.
  intros ([col vals] & Hin%list_elem_of_In & Hm). simpl in Hm.
  destruct (ci !! col) as [j|] eqn:Hj; [|done].
  destruct Hm as [<-|[]]. exists col, vals. by repeat split.
Qed.

(** The assignments of the loop of lines 635-656 come from records that
    carry a row number, and land on the worksheet row of that number. *)
Lemma row_based_from_records (ci : gmap string nat) (v : list ValueDiff) (m : mark) :
  m ∈ row_based ci (build_diff_lookup ci v) ->
  ∃ d, d ∈ v
    ∧ ci !! column d = Some (mark_column m)
    ∧ mark_fill m = YELLOW_FILL
    ∧ comment_text m = "Value in file 1: " +:+ value1 d +:+ Display.newline
                         +:+ "Value in file 2: " +:+ value2 d
    ∧ comment_author m = "Comparison Ability"
    ∧ ∃ row, at_ d = Row row ∧ mark_row m = (row + 2)%nat.
Proof.
  unfold row_based. rewrite list_elem_of_In, in_flat_map.
  intros ([key cols] & Hin%list_elem_of_In & Hm). simpl in Hm.
  destruct (int key) as [i|] eqn:Hint; [|done].
  apply list_elem_of_In, mark_cells_from_entry in Hm
    as (col & vals & Hc & Hj & Hrow & Hf & Ht & Ha).
  destruct (diff_lookup_from_record ci v key col cols vals Hin Hc)
    as (d & Hd & <- & <- & <-).
  exists d. repeat (split; [done|]).
  rewrite int_str_key in Hint. destruct (at_ d) as [k|row]; [done|].
  injection Hint as ->. by exists i.
Qed.

(** The assignments of the loop of lines 615-631 come from records that
    carry a key dictionary, and land on the worksheet row of a row of
    [df1] with the same key string. *)
Lemma key_based_from_records (ci : gmap string nat) (df1 : DataFrame) (kc : list string)
    (v : list ValueDiff) (m : mark) :
  m ∈ key_based ci (key_to_row df1 kc) (build_diff_lookup ci v) ->
  ∃ d, d ∈ v
    ∧ ci !! column d = Some (mark_column m)
    ∧ mark_fill m = YELLOW_FILL
    ∧ comment_text m = "Value in file 1: " +:+ value1 d +:+ Display.newline
                         +:+ "Value in file 2: " +:+ value2 d
    ∧ comment_author m = "Comparison Ability"
    ∧ has_key d = true
    ∧ ∃ i row, rows df1 !! i = Some row ∧ row_key df1 kc row = str_key d
               ∧ mark_row m = (i + 2)%nat.
Proof.
  unfold key_based. rewrite list_elem_of_In, in_flat_map.
  intros ([key cols] & Hin%list_elem_of_In & Hm). simpl in Hm.
  destruct (key_to_row df1 kc !! key) as [i|] eqn:Hrow; [|done].
  apply key_to_row_lookup in Hrow as (row & Hrow & Hkey).
  apply list_elem_of_In, mark_cells_from_entry in Hm
    as (col & vals & Hc & Hj & Hr & Hf & Ht & Ha).
  destruct (diff_lookup_from_record ci v key col cols vals Hin Hc)
    as (d & Hd & <- & <- & <-).
  exists d. repeat (split; [done|]). split.
  - pose proof (int_row_key df1 kc row) as Hint. rewrite Hkey, int_str_key in Hint.
    unfold has_key. by destruct (at_ d).
  - by exists i, row.
Qed.

(** Every record with a row number whose column the worksheet shows
    gets its cell assigned. *)
Lemma row_based_marks_records (ci : gmap string nat) (v : list ValueDiff)
    (d : ValueDiff) (row j : nat) :
  d ∈ v -> at_ d = Row row -> ci !! column d = Some j ->
  ∃ m, m ∈ row_based ci (build_diff_lookup ci v)
    ∧ mark_row m = (row + 2)%nat ∧ mark_column m = j ∧ mark_fill m = YELLOW_FILL.
Proof.
  intros Hd Hrow Hj.
  destruct (build_diff_lookup_shows ci v d Hd) as (cols & Hget & Hcol); [by eexists|].
  destruct (mark_cells_marks ci (row + 2) cols (column d) j Hcol Hj)
    as (m & Hm & Hmarks).
  exists m. split; [|done].
  unfold row_based. rewrite list_elem_of_In, in_flat_map.
  exists (str_key d, cols). split; [by apply list_elem_of_In, get_elem_of|].
  simpl. rewrite int_str_key, Hrow. by apply list_elem_of_In.
Qed.

Lemma limit_value_diffs_take (v : list ValueDiff) :
  Highlighting.limit_value_diffs v = take 1000 v.
Proof.
  unfold Highlighting.limit_value_diffs. case_bool_decide; [done|].
  by rewrite take_ge by lia.
Qed.

(** The block on a list and on its first 1000 records. *)
Lemma highlight_value_differences_prefix (df1 : DataFrame) (all_cols : list string)
    (v : list ValueDiff) :
  highlight_value_differences df1 all_cols v
  = highlight_value_differences df1 all_cols (take 1000 v).
Proof.
  unfold highlight_value_differences. by rewrite !limit_value_diffs_take, take_take.
Qed.

(** The block, when it runs to its end. *)
Lemma highlight_value_differences_effects (df1 : DataFrame) (all_cols : list string)
    (v : list ValueDiff) (e : effects) :
  highlight_value_differences df1 all_cols v = Completes e ->
  calls e = []
  ∧ (∀ m, m ∈ marks e ->
      ∃ d, d ∈ take 1000 v
        ∧ col_indices all_cols !! column d = Some (mark_column m)
        ∧ mark_fill m = YELLOW_FILL
        ∧ comment_text m = "Value in file 1: " +:+ value1 d +:+ Display.newline
                             +:+ "Value in file 2: " +:+ value2 d
        ∧ comment_author m = "Comparison Ability"
        ∧ match at_ d with
          | Row row => mark_row m = (row + 2)%nat
          | Key _ =>
              ∃ kc i row, key_cols df1 (take 1000 v) = Some kc
                ∧ rows df1 !! i = Some row
                ∧ row_key df1 kc row = str_key d
                ∧ mark_row m = (i + 2)%nat
          end)
  ∧ (∀ d row j, d ∈ take 1000 v -> at_ d = Row row ->
       col_indices all_cols !! column d = Some j ->
       ∃ m, m ∈ marks e ∧ mark_row m = (row + 2)%nat ∧ mark_column m = j
            ∧ mark_fill m = YELLOW_FILL).
Proof.
  unfold highlight_value_differences. rewrite limit_value_diffs_take.
  assert (forall m, m ∈ row_based (col_indices all_cols)
                          (build_diff_lookup (col_indices all_cols) (take 1000 v)) ->
      ∃ d, d ∈ take 1000 v
        ∧ col_indices all_cols !! column d = Some (mark_column m)
        ∧ mark_fill m = YELLOW_FILL
        ∧ comment_text m = "Value in file 1: " +:+ value1 d +:+ Display.newline
                             +:+ "Value in file 2: " +:+ value2 d
        ∧ comment_author m = "Comparison Ability"
        ∧ match at_ d with
          | Row row => mark_row m = (row + 2)%nat
          | Key _ =>
              ∃ kc i row, key_cols df1 (take 1000 v) = Some kc
                ∧ rows df1 !! i = Some row
                ∧ row_key df1 kc row = str_key d
                ∧ mark_row m = (i + 2)%nat
          end) as Hrows.
  { intros m (d & Hd & Hj & Hf & Ht & Ha & row & Hrow & Hm)%row_based_from_records.
    exists d. repeat (split; [done|]). by rewrite Hrow. }
  destruct (existsb has_key (take 1000 v)).
  - destruct (key_cols df1 (take 1000 v)) as [kc|] eqn:Hkc; [|done].
    intros [= <-]. split; [done|]. cbn [marks]. split.
    + intros m [Hm|Hm]%elem_of_app; [|by apply Hrows].
      apply key_based_from_records in Hm
        as (d & Hd & Hj & Hf & Ht & Ha & Hk & i & row & Hrow & Hkey & Hm).
      exists d. repeat (split; [done|]).
      unfold has_key in Hk. destruct (at_ d) as [k|r]; [|done].
      by exists kc, i, row.
    + intros d row j Hd Hrow Hj.
      destruct (row_based_marks_records _ _ d row j Hd Hrow Hj) as (m & Hm & ?).
      exists m. split; [|done]. apply elem_of_app. by right.
  - intros [= <-]. split; [done|]. cbn [marks]. split; [exact Hrows|].
    intros d row j Hd Hrow Hj. by apply (row_based_marks_records _ _ d).
Qed.

(** On records that all carry a row number the block runs to its end. *)
Lemma highlight_value_differences_completes (df1 : DataFrame) (all_cols : list string)
    (v : list ValueDiff) :
  (forall d, d ∈ v -> has_key d = false) ->
  ∃ e, highlight_value_differences df1 all_cols v = Completes e.
Proof.
  intros Hv. unfold highlight_value_differences. rewrite limit_value_diffs_take.
  assert (existsb has_key (take 1000 v) = false) as ->; [|by eexists].
  apply not_true_is_false. intros (d & Hd & Hk)%existsb_exists.
  apply list_elem_of_In, subseteq_take in Hd. rewrite (Hv d Hd) in Hk. discriminate Hk.
Qed.

End HighlighterFacts.

(** ** Chunking, caps and normalization *)
Module ModeClaims.
Import Py Pandas Comparison PyFacts SheetFacts ChunkFacts HighlighterFacts Scenarios.
Local Open Scope list_scope.

(** C8.  For any two positive chunk sizes [compare_sheets] returns, and
    the two triples agree: the same detailed and summary reports, the
    same column differences, the same row differences (count, missing
    and extra rows), and value-difference lists that are permutations
    of one another; with key columns the two triples are equal. *)
Theorem chunk_size_invariance (df1 df2 : DataFrame)
    (key_columns : option (list string)) (c1 c2 : Z) :
  0 < c1 -> 0 < c2 ->
  ∃ r1 r2,
    compare_sheets df1 df2 key_columns c1 = Returns r1
    ∧ compare_sheets df1 df2 key_columns c2 = Returns r2
    ∧ detailed_report r1 = detailed_report r2
    ∧ summary_report r1 = summary_report r2
    ∧ column_differences (error_details r1) = column_differences (error_details r2)
    ∧ row_differences (error_details r1) = row_differences (error_details r2)
    ∧ value_differences (error_details r1) ≡ₚ value_differences (error_details r2)
    ∧ (truthy key_columns ≠ None -> r1 = r2).
Proof.
  intros H1 H2. unfold compare_sheets, compare_sheets_with.
  destruct (equals df1 df2).
  { exists empty_report, empty_report. by repeat split. }
  destruct (truthy key_columns) as [ks|].
  - destruct (key_columns_present df1 df2 ks).
    + rewrite !keyed_value_diffs_positive by done. simpl.
      eexists _, _. by repeat split.
    + eexists _, _. by repeat split.
  - destruct (positional_value_diffs_positive df1 df2 c1 H1) as (v1 & -> & Hv1).
    destruct (positional_value_diffs_positive df1 df2 c2 H2) as (v2 & -> & Hv2).
    simpl. exists (positional_report df1 df2 v1), (positional_report df1 df2 v2).
    assert (v1 ≡ₚ v2) as Hp by (by rewrite Hv1, Hv2).
    destruct (log_value_differences_perm v1 v2 (structural_report df1 df2) Hp)
      as [Hd Hs].
    rewrite !positional_error_details. simpl.
    repeat split; done.
Qed.

Lemma chunk_size_invariance_witness :
  ∃ r1 r2,
    compare_sheets (zeros 3) (ones 3) None 10 = Returns r1
    ∧ compare_sheets (zeros 3) (ones 3) None 100000 = Returns r2
    ∧ detailed_report r1 = detailed_report r2
    ∧ summary_report r1 = summary_report r2
    ∧ column_differences (error_details r1) = column_differences (error_details r2)
    ∧ row_differences (error_details r1) = row_differences (error_details r2)
    ∧ value_differences (error_details r1) ≡ₚ value_differences (error_details r2)
    ∧ (truthy None ≠ None -> r1 = r2).
Proof. apply (chunk_size_invariance (zeros 3) (ones 3) None 10 100000); lia. Defined.

(** Without key columns the order of the records does depend on the
    chunk size: chunks of one row list row by row, one large chunk
    lists column by column. *)
Example chunk_size_changes_order :
  ∃ r1 r2,
    compare_sheets (zeros 2) (ones 2) None 1 = Returns r1
    ∧ compare_sheets (zeros 2) (ones 2) None 100000 = Returns r2
    ∧ at_ <$> value_differences (error_details r1) = [Row 0; Row 0; Row 1; Row 1]
    ∧ at_ <$> value_differences (error_details r2) = [Row 0; Row 1; Row 0; Row 1].
Proof. eexists _, _. repeat split; by vm_compute. Qed.

Lemma keyed_report_lines (df1 df2 : DataFrame) (ks : list string) (v : list ValueDiff) :
  let r := keyed_report df1 df2 ks v in
  (missing_keys df1 df2 ks ≠ ∅ ->
     ("Missing rows: " +:+ pretty (size (missing_keys df1 df2 ks))) ∈ summary_report r
     ∧ ("Missing rows in second file: " +:+ pretty (size (missing_keys df1 df2 ks)))
         ∈ detailed_report r)
  ∧ (extra_keys df1 df2 ks ≠ ∅ ->
     ("Extra rows: " +:+ pretty (size (extra_keys df1 df2 ks))) ∈ summary_report r
     ∧ ("Extra rows in second file: " +:+ pretty (size (extra_keys df1 df2 ks)))
         ∈ detailed_report r).
Proof.
  unfold keyed_report. generalize (structural_report df1 df2). intros r0.
  unfold log_value_differences, log_extra_rows, log_missing_rows.
  split; intros Hne; repeat case_bool_decide; try done; simpl;
    rewrite ?elem_of_app, !list_elem_of_singleton; tauto.
Qed.

(** C6.  With key columns that both frames have, on frames that are not
    identical and with a positive chunk size, [compare_sheets] returns
    a triple whose [missing_rows] and [extra_rows] lists hold the first
    100 keys at most, while the summary and detailed reports state the
    full number of keys found in the first frame only and in the second
    frame only. *)
Theorem missing_extra_rows_capped (df1 df2 : DataFrame) (k : string)
    (ks : list string) (chunk_size : Z) :
  equals df1 df2 = false ->
  key_columns_present df1 df2 (k :: ks) = true ->
  0 < chunk_size ->
  ∃ r, compare_sheets df1 df2 (Some (k :: ks)) chunk_size = Returns r
    ∧ length (missing_rows (row_differences (error_details r)))
      = Nat.min 100 (size (missing_keys df1 df2 (k :: ks)))
    ∧ length (extra_rows (row_differences (error_details r)))
      = Nat.min 100 (size (extra_keys df1 df2 (k :: ks)))
    ∧ (length (missing_rows (row_differences (error_details r))) <= 100)%nat
    ∧ (length (extra_rows (row_differences (error_details r))) <= 100)%nat
    ∧ (missing_keys df1 df2 (k :: ks) ≠ ∅ ->
         ("Missing rows: " +:+ pretty (size (missing_keys df1 df2 (k :: ks))))
           ∈ summary_report r
         ∧ ("Missing rows in second file: "
              +:+ pretty (size (missing_keys df1 df2 (k :: ks))))
             ∈ detailed_report r)
    ∧ (extra_keys df1 df2 (k :: ks) ≠ ∅ ->
         ("Extra rows: " +:+ pretty (size (extra_keys df1 df2 (k :: ks))))
           ∈ summary_report r
         ∧ ("Extra rows in second file: "
              +:+ pretty (size (extra_keys df1 df2 (k :: ks))))
             ∈ detailed_report r).
Proof.
  intros He Hp Hc. unfold compare_sheets, compare_sheets_with. rewrite He. simpl truthy. cbv iota.
  rewrite Hp, keyed_value_diffs_positive by done. cbn [bind].
  eexists. split; [done|].
  rewrite keyed_error_details.
  cbn [error_details row_differences missing_rows extra_rows].
  rewrite !length_fmap, !length_take.
  assert (forall s : gset (list string), length (elements s) = size s) as Hsize by done.
  rewrite !Hsize.
  split; [done|]. split; [done|].
  split; [apply Nat.le_min_l|]. split; [apply Nat.le_min_l|].
  apply keyed_report_lines.
Qed.

(** The theorem at 150 keyed rows present in the first frame only. *)
Lemma missing_extra_rows_capped_witness :
  ∃ r, compare_sheets (numbered 150) (numbered 0) (Some ["ID"]) default_chunk_size
       = Returns r
    ∧ length (missing_rows (row_differences (error_details r))) = 100%nat
    ∧ "Missing rows: 150" ∈ summary_report r
    ∧ "Missing rows in second file: 150" ∈ detailed_report r
    ∧ extra_rows (row_differences (error_details r)) = [].
Proof.
  destruct (missing_extra_rows_capped (numbered 150) (numbered 0) "ID" []
              default_chunk_size)
    as (r & Hr & Hm & Hx & _ & _ & Hlines & _).
  { vm_compute. reflexivity. }
  { vm_compute. reflexivity. }
  { unfold default_chunk_size. lia. }
  assert (size (missing_keys (numbered 150) (numbered 0) ["ID"]) = 150%nat) as Hsize
    by (vm_compute; reflexivity).
  assert (size (extra_keys (numbered 150) (numbered 0) ["ID"]) = 0%nat) as Hsize'
    by (vm_compute; reflexivity).
  rewrite Hsize in Hm, Hlines. rewrite Hsize' in Hx.
  exists r. split; [exact Hr|]. split; [exact Hm|].
  destruct Hlines as [Hs Hd].
  { intros Hempty. rewrite Hempty in Hsize. vm_compute in Hsize. discriminate Hsize. }
  split; [exact Hs|]. split; [exact Hd|].
  destruct (extra_rows (row_differences (error_details r))); [reflexivity|].
  simpl in Hx. discriminate Hx.
Defined.

Lemma flat_map_bind {A B} (f : A -> list B) (l : list A) : flat_map f l = l ≫= f.
Proof. induction l as [|a l IH]; [done|]. simpl. by rewrite IH. Qed.

(** No record of the positional scan is listed twice. *)
Lemma chunk_diffs_NoDup (df1 df2 : DataFrame) (i e : nat) :
  NoDup (chunk_diffs df1 df2 i e).
Proof.
  unfold chunk_diffs. rewrite flat_map_bind. apply NoDup_bind.
  - intros col1 col2 d _ _ H1 H2.
    apply list_elem_of_In, in_flat_map in H1 as (i1 & _ & H1).
    apply list_elem_of_In, in_flat_map in H2 as (i2 & _ & H2).
    repeat case_bool_decide; try done.
    destruct H1 as [<-|[]]. destruct H2 as [H2|[]]. by injection H2.
  - intros col _. rewrite flat_map_bind. apply NoDup_bind.
    + intros i1 i2 d _ _ H1 H2. repeat case_bool_decide;
        try (by apply elem_of_nil in H1); try (by apply elem_of_nil in H2).
      apply list_elem_of_singleton in H1, H2. subst d. by injection H2.
    + intros idx _. case_bool_decide; [apply NoDup_singleton|apply NoDup_nil_2].
    + apply NoDup_seq.
  - apply NoDup_elements.
Qed.

Lemma log_value_differences_lines (v : list ValueDiff) (r : Report) :
  v ≠ [] ->
  ("Value differences: " +:+ pretty (length v)) ∈ summary_report (log_value_differences v r)
  ∧ ("Value differences: " +:+ pretty (length v))
      ∈ detailed_report (log_value_differences v r).
Proof.
  intros Hv. unfold log_value_differences. rewrite bool_decide_eq_true_2 by done.
  simpl. rewrite !elem_of_app, !list_elem_of_singleton. tauto.
Qed.

(** What the highlighter and the table of [app.py] do with a list of
    records. *)
Lemma presentation_of_records (df : DataFrame) (all_cols : list string)
    (v : list ValueDiff) :
  Highlighting.limit_value_diffs v = take 1000 v
  ∧ Highlighter.highlight_value_differences df all_cols v
    = Highlighter.highlight_value_differences df all_cols (take 1000 v)
  ∧ (∀ e, Highlighter.highlight_value_differences df all_cols v
          = Highlighter.Completes e ->
       Highlighter.calls e = []
       ∧ (∀ m, m ∈ Highlighter.marks e ->
           ∃ d, d ∈ take 1000 v
             ∧ Highlighter.col_indices all_cols !! column d
               = Some (Highlighter.mark_column m)
             ∧ Highlighter.mark_fill m = Highlighter.YELLOW_FILL
             ∧ Highlighter.comment_text m
               = "Value in file 1: " +:+ value1 d +:+ Display.newline
                   +:+ "Value in file 2: " +:+ value2 d
             ∧ Highlighter.comment_author m = "Comparison Ability"
             ∧ match at_ d with
               | Row row => Highlighter.mark_row m = (row + 2)%nat
               | Key _ =>
                   ∃ kc i row,
                     Highlighter.key_cols df (take 1000 v) = Some kc
                     ∧ rows df !! i = Some row
                     ∧ Highlighter.row_key df kc row = Highlighter.str_key d
                     ∧ Highlighter.mark_row m = (i + 2)%nat
               end)
       ∧ (∀ d row j, d ∈ take 1000 v -> at_ d = Row row ->
            Highlighter.col_indices all_cols !! column d = Some j ->
            ∃ m, m ∈ Highlighter.marks e
              ∧ Highlighter.mark_row m = (row + 2)%nat
              ∧ Highlighter.mark_column m = j
              ∧ Highlighter.mark_fill m = Highlighter.YELLOW_FILL))
  ∧ snd (App.displayed_value_diffs v) = take 1000 v
  ∧ (fst (App.displayed_value_diffs v) ≠ [] ↔ (1000 < length v)%nat)
  ∧ ((1000 < length v)%nat ->
     fst (App.displayed_value_diffs v)
     = ["Showing only 1000 of " +:+ pretty (length v) +:+ " value differences"]).
Proof.
  split; [apply limit_value_diffs_take|].
  split; [apply highlight_value_differences_prefix|].
  split; [apply highlight_value_differences_effects|].
  unfold App.displayed_value_diffs. case_bool_decide; simpl.
  - split; [done|]. split; [|done]. split; [done|]. by intros _.
  - split; [by rewrite take_ge by lia|]. split; [|lia]. split; [done|lia].
Qed.

(** C7, as the code has it.  On frames that are not identical and with
    a positive chunk size, [compare_sheets] keeps every value
    difference it detects: without key columns the list holds, once
    each, exactly the records of the cells of the common columns and
    the first [min(len(df1), len(df2))] rows whose renderings differ;
    with key columns present it holds exactly the records of the common
    keys.  When the list is not empty both reports state its full
    length.

    The highlighter works on the first 1000 records and nothing it does
    marks the cut.  For every frame [df] and every list [all_cols] it
    runs with, its value-difference block does the same on the full
    list as on the first 1000 records alone.  When it runs to its end,
    which it does on the records of a comparison without key columns,
    it has made no Streamlit call; every cell assignment it has made is
    a yellow fill with the comment that states the two values of one of
    the first 1000 records, in that record's column and in the
    worksheet row of that record's row number (or, for a record with a
    key dictionary, of a row of [df] with that key); and the cell of
    each of the first 1000 records that has a row number and a column
    of [all_cols] is assigned.

    The table of [app.py] shows the first 1000 records and warns, with
    the number of records, exactly when records were dropped. *)
Theorem value_differences_kept_in_full (df1 df2 : DataFrame)
    (key_columns : option (list string)) (chunk_size : Z)
    (df : DataFrame) (all_cols : list string) :
  equals df1 df2 = false ->
  0 < chunk_size ->
  ∃ r, compare_sheets df1 df2 key_columns chunk_size = Returns r
    ∧ (truthy key_columns = None ->
         NoDup (value_differences (error_details r))
         ∧ ∀ d, d ∈ value_differences (error_details r) ↔
             ∃ col idx, col ∈ common_cols df1 df2
               ∧ (idx < Nat.min (len df1) (len df2))%nat
               ∧ str (loc df1 idx col) ≠ str (loc df2 idx col)
               ∧ d = {| at_ := Row idx; column := col;
                        value1 := str (loc df1 idx col);
                        value2 := str (loc df2 idx col) |})
    ∧ (∀ ks, truthy key_columns = Some ks ->
         key_columns_present df1 df2 ks = true ->
         ∀ d, d ∈ value_differences (error_details r) ↔
           ∃ key, key ∈ common_keys df1 df2 ks ∧ d ∈ key_diffs df1 df2 ks key)
    ∧ (value_differences (error_details r) ≠ [] ->
         ("Value differences: " +:+ pretty (length (value_differences (error_details r))))
           ∈ summary_report r
         ∧ ("Value differences: "
              +:+ pretty (length (value_differences (error_details r))))
             ∈ detailed_report r)
    ∧ (truthy key_columns = None ->
         ∃ e, Highlighter.highlight_value_differences df all_cols
                (value_differences (error_details r)) = Highlighter.Completes e)
    ∧ Highlighting.limit_value_diffs (value_differences (error_details r))
      = take 1000 (value_differences (error_details r))
    ∧ Highlighter.highlight_value_differences df all_cols
        (value_differences (error_details r))
      = Highlighter.highlight_value_differences df all_cols
          (take 1000 (value_differences (error_details r)))
    ∧ (∀ e, Highlighter.highlight_value_differences df all_cols
              (value_differences (error_details r)) = Highlighter.Completes e ->
         Highlighter.calls e = []
         ∧ (∀ m, m ∈ Highlighter.marks e ->
             ∃ d, d ∈ take 1000 (value_differences (error_details r))
               ∧ Highlighter.col_indices all_cols !! column d
                 = Some (Highlighter.mark_column m)
               ∧ Highlighter.mark_fill m = Highlighter.YELLOW_FILL
               ∧ Highlighter.comment_text m
                 = "Value in file 1: " +:+ value1 d +:+ Display.newline
                     +:+ "Value in file 2: " +:+ value2 d
               ∧ Highlighter.comment_author m = "Comparison Ability"
               ∧ match at_ d with
                 | Row row => Highlighter.mark_row m = (row + 2)%nat
                 | Key _ =>
                     ∃ kc i row,
                       Highlighter.key_cols df
                         (take 1000 (value_differences (error_details r))) = Some kc
                       ∧ rows df !! i = Some row
                       ∧ Highlighter.row_key df kc row = Highlighter.str_key d
                       ∧ Highlighter.mark_row m = (i + 2)%nat
                 end)
         ∧ (∀ d row j, d ∈ take 1000 (value_differences (error_details r)) ->
              at_ d = Row row ->
              Highlighter.col_indices all_cols !! column d = Some j ->
              ∃ m, m ∈ Highlighter.marks e
                ∧ Highlighter.mark_row m = (row + 2)%nat
                ∧ Highlighter.mark_column m = j
                ∧ Highlighter.mark_fill m = Highlighter.YELLOW_FILL))
    ∧ snd (App.displayed_value_diffs (value_differences (error_details r)))
      = take 1000 (value_differences (error_details r))
    ∧ (fst (App.displayed_value_diffs (value_differences (error_details r))) ≠ []
       ↔ (1000 < length (value_differences (error_details r)))%nat)
    ∧ ((1000 < length (value_differences (error_details r)))%nat ->
       fst (App.displayed_value_diffs (value_differences (error_details r)))
       = ["Showing only 1000 of "
            +:+ pretty (length (value_differences (error_details r)))
            +:+ " value differences"]).
Proof.
  intros He Hc. unfold compare_sheets, compare_sheets_with. rewrite He.
  destruct (truthy key_columns) as [ks|] eqn:Hk.
  - destruct (key_columns_present df1 df2 ks) eqn:Hp.
    + rewrite keyed_value_diffs_positive by done. cbn [bind].
      eexists. split; [done|]. rewrite keyed_error_details.
      cbn [error_details value_differences].
      split; [done|]. split.
      { intros ks' [= <-] _ d. rewrite list_elem_of_In, in_flat_map.
        setoid_rewrite <- list_elem_of_In. by setoid_rewrite elem_of_elements. }
      split; [apply log_value_differences_lines|].
      split; [done|]. apply presentation_of_records.
    + eexists. split; [done|].
      rewrite key_columns_missing_with_error_details, structural_error_details.
      cbn [error_details value_differences].
      split; [done|]. split; [intros ks' [= <-]; congruence|].
      split; [done|]. split; [done|]. apply presentation_of_records.
  - destruct (positional_value_diffs_positive df1 df2 chunk_size Hc) as (v & -> & Hv).
    cbn [bind]. eexists. split; [done|]. rewrite positional_error_details.
    cbn [error_details value_differences].
    split.
    { intros _. split.
      - rewrite Hv. apply chunk_diffs_NoDup.
      - intros d. rewrite Hv. apply chunk_diffs_elem. }
    split; [done|].
    split; [apply log_value_differences_lines|].
    split; [|apply presentation_of_records].
    intros _. apply highlight_value_differences_completes.
    intros d Hd. rewrite Hv in Hd.
    apply chunk_diffs_elem in Hd as (col & idx & _ & _ & _ & ->). reflexivity.
Qed.

(** The theorem at 600 rows that differ in both columns: 1200 records
    are kept and counted; the highlighter, run on the first frame with
    the columns [p] and [q], makes no Streamlit call and assigns 1000
    cells. *)
Lemma value_differences_kept_in_full_witness :
  ∃ r e, compare_sheets (zeros 600) (ones 600) None default_chunk_size = Returns r
    ∧ length (value_differences (error_details r)) = 1200%nat
    ∧ "Value differences: 1200" ∈ summary_report r
    ∧ length (Highlighting.limit_value_diffs (value_differences (error_details r)))
      = 1000%nat
    ∧ Highlighter.highlight_value_differences (zeros 600) ["p"; "q"]
        (value_differences (error_details r)) = Highlighter.Completes e
    ∧ Highlighter.calls e = []
    ∧ length (Highlighter.marks e) = 1000%nat.
Proof.
  destruct (value_differences_kept_in_full (zeros 600) (ones 600) None
              default_chunk_size (zeros 600) ["p"; "q"])
    as (r & Hr & _ & _ & Hlines & _ & Hlimit & _ & Hmarks & _).
  { vm_compute. reflexivity. }
  { unfold default_chunk_size. lia. }
  assert (compare_sheets (zeros 600) (ones 600) None default_chunk_size
          = Returns (positional_report (zeros 600) (ones 600)
                       (chunk_diffs (zeros 600) (ones 600) 0 600))) as Hr'
    by (vm_compute; reflexivity).
  rewrite Hr in Hr'. injection Hr' as ->.
  assert (length (value_differences (error_details
            (positional_report (zeros 600) (ones 600)
               (chunk_diffs (zeros 600) (ones 600) 0 600)))) = 1200%nat) as Hlen
    by (vm_compute; reflexivity).
  assert (match Highlighter.highlight_value_differences (zeros 600) ["p"; "q"]
                  (value_differences (error_details
                     (positional_report (zeros 600) (ones 600)
                        (chunk_diffs (zeros 600) (ones 600) 0 600)))) with
          | Highlighter.Completes e => length (Highlighter.marks e) = 1000%nat
          | Highlighter.RaisesIndexError => False
          end) as Hn by (vm_compute; reflexivity).
  destruct (Highlighter.highlight_value_differences (zeros 600) ["p"; "q"]
              (value_differences (error_details
                 (positional_report (zeros 600) (ones 600)
                    (chunk_diffs (zeros 600) (ones 600) 0 600))))) as [e|] eqn:Hblock;
    [|destruct Hn].
  eexists. exists e. split; [exact Hr|]. split; [exact Hlen|].
  rewrite Hlen in Hlines. split.
  { apply Hlines. intros Hnil. rewrite Hnil in Hlen. discriminate Hlen. }
  split; [by rewrite Hlimit, length_take, Hlen|].
  split; [exact Hblock|].
  split; [apply (Hmarks e eq_refl)|].
  exact Hn.
Defined.

(** C7 as stated fails for the highlighter.  Of 1200 kept records it
    works on the first 1000 and marks the cut nowhere: it makes no
    Streamlit call, it assigns 1000 cells, each a yellow fill with the
    comment that states the two values of a record, and it does exactly
    what it does when handed those 1000 records alone. *)
Lemma highlighter_truncates_silently :
  ∃ r e, compare_sheets (zeros 600) (ones 600) None default_chunk_size = Returns r
    ∧ length (value_differences (error_details r)) = 1200%nat
    ∧ Highlighter.highlight_value_differences (zeros 600) ["p"; "q"]
        (value_differences (error_details r)) = Highlighter.Completes e
    ∧ Highlighter.calls e = []
    ∧ ((fun m => (Highlighter.mark_fill m, Highlighter.comment_text m,
                  Highlighter.comment_author m)) <$> Highlighter.marks e)
      = replicate 1000
          (Highlighter.YELLOW_FILL,
           "Value in file 1: 0" +:+ Display.newline +:+ "Value in file 2: 1",
           "Comparison Ability")
    ∧ Highlighter.highlight_value_differences (zeros 600) ["p"; "q"]
        (take 1000 (value_differences (error_details r))) = Highlighter.Completes e.
Proof. eexists. eexists. repeat split; by vm_compute. Qed.

(** C2 at frames with missing values.  Without key columns the records
    render [None] as ["None"] and NaN as ["nan"], and report the pair
    [None]/NaN of row 0 as a difference; with the key column [ID] the
    same pair is equal after normalization and the NaN of row 1 is
    rendered ["NaN"]. *)
Theorem missing_values_positional_vs_keyed :
  (∃ r, compare_sheets gaps_A gaps_B None default_chunk_size = Returns r
     ∧ value_differences (error_details r) =
         [ {| at_ := Row 0; column := "c"; value1 := "None"; value2 := "nan" |};
           {| at_ := Row 1; column := "c"; value1 := "nan"; value2 := "x" |} ])
  ∧ (∃ r, compare_sheets gaps_A gaps_B (Some ["ID"]) default_chunk_size = Returns r
     ∧ value_differences (error_details r) =
         [ {| at_ := Key [("ID", "2")]; column := "c";
              value1 := "NaN"; value2 := "x" |} ]).
Proof. split; eexists; split; by vm_compute. Qed.

End ModeClaims.

(** * Further properties *)

(** ** Further properties of [compare_sheets] *)
Module SheetExtras.
Import Py Pandas Comparison PyFacts SheetFacts ChunkFacts.
Local Open Scope list_scope.

Lemma all2_sym {A} (p : A -> A -> bool) (xs ys : list A) :
  (forall x y, p x y = p y x) -> all2 p xs ys = all2 p ys xs.
Proof.
  intros Hp. revert ys. induction xs as [|x xs IH]; intros [|y ys]; simpl; try done.
  by rewrite Hp, IH.
Qed.

Lemma cell_equiv_sym (a b : cell) : cell_equiv a b = cell_equiv b a.
Proof.
  destruct a, b; simpl; try done; apply bool_decide_ext; split; congruence.
Qed.

Lemma equals_sym (df1 df2 : DataFrame) : equals df1 df2 = equals df2 df1.
Proof.
  unfold equals. f_equal.
  - apply bool_decide_ext. split; congruence.
  - apply all2_sym. intros r1 r2. apply all2_sym, cell_equiv_sym.
Qed.

(** What every triple returned for non-identical frames holds for the
    columns and the row count. *)
Lemma compare_sheets_structure (df1 df2 : DataFrame) (key_columns : option (list string))
    (chunk_size : Z) (r : Report) :
  compare_sheets df1 df2 key_columns chunk_size = Returns r ->
  equals df1 df2 = false ->
  column_differences (error_details r) =
    {| missing_columns := elements (missing_cols df1 df2);
       extra_columns := elements (extra_cols df1 df2);
       reordered_columns := reordered_cols df1 df2 |}
  ∧ count_diff (row_differences (error_details r)) = row_diff df1 df2.
Proof.
  intros Hr He.
  apply compare_sheets_inv in Hr as [[Ht _]|[_ Hr]]; [congruence|].
  destruct Hr as [[_ (v & _ & ->)]|(ks & _ & [[_ (v & _ & ->)]|[_ ->]])].
  - by rewrite positional_error_details.
  - by rewrite keyed_error_details.
  - by rewrite key_columns_missing_error_details, structural_error_details.
Qed.

(** X1.  Swapping the two frames swaps the roles of missing and extra
    columns and negates the row-count difference. *)
Theorem swapped_frames_swap_missing_and_extra (df1 df2 : DataFrame)
    (key_columns : option (list string)) (chunk_size : Z) :
  0 < chunk_size ->
  ∃ r12 r21,
    compare_sheets df1 df2 key_columns chunk_size = Returns r12
    ∧ compare_sheets df2 df1 key_columns chunk_size = Returns r21
    ∧ missing_columns (column_differences (error_details r12))
      ≡ₚ extra_columns (column_differences (error_details r21))
    ∧ extra_columns (column_differences (error_details r12))
      ≡ₚ missing_columns (column_differences (error_details r21))
    ∧ count_diff (row_differences (error_details r12))
      = - count_diff (row_differences (error_details r21)).
Proof.
  intros Hc.
  destruct (compare_sheets_returns df1 df2 key_columns chunk_size Hc) as [r12 H12].
  destruct (compare_sheets_returns df2 df1 key_columns chunk_size Hc) as [r21 H21].
  exists r12, r21. split; [done|]. split; [done|].
  destruct (equals df1 df2) eqn:He.
  - pose proof He as He'. rewrite equals_sym in He'.
    unfold compare_sheets, compare_sheets_with in H12, H21. rewrite He in H12. rewrite He' in H21.
    injection H12 as <-. injection H21 as <-. done.
  - pose proof He as He'. rewrite equals_sym in He'.
    destruct (compare_sheets_structure _ _ _ _ _ H12 He) as [-> ->].
    destruct (compare_sheets_structure _ _ _ _ _ H21 He') as [-> ->].
    simpl. unfold row_diff. repeat split; [done|done|lia].
Qed.

Lemma swapped_frames_swap_missing_and_extra_witness :
  ∃ r12 r21,
    compare_sheets Scenarios.shifted_A Scenarios.shifted_B None 10000 = Returns r12
    ∧ compare_sheets Scenarios.shifted_B Scenarios.shifted_A None 10000 = Returns r21
    ∧ missing_columns (column_differences (error_details r12))
      ≡ₚ extra_columns (column_differences (error_details r21))
    ∧ extra_columns (column_differences (error_details r12))
      ≡ₚ missing_columns (column_differences (error_details r21))
    ∧ count_diff (row_differences (error_details r12))
      = - count_diff (row_differences (error_details r21)).
Proof.
  apply (swapped_frames_swap_missing_and_extra Scenarios.shifted_A Scenarios.shifted_B
           None 10000).
  lia.
Defined.

(** X2.  A zero chunk size makes [compare_sheets] raise as soon as it
    reaches a comparison loop: on frames that are not identical, without
    key columns or with key columns that both frames have. *)
Theorem zero_chunk_size_raises (df1 df2 : DataFrame) (key_columns : option (list string)) :
  equals df1 df2 = false ->
  (forall ks, truthy key_columns = Some ks -> key_columns_present df1 df2 ks = true) ->
  compare_sheets df1 df2 key_columns 0
  = Raises (ValueError "range() arg 3 must not be zero").
Proof.
  intros He Hk. unfold compare_sheets, compare_sheets_with. rewrite He.
  destruct (truthy key_columns) as [ks|].
  - by rewrite (Hk ks eq_refl).
  - done.
Qed.

Lemma zero_chunk_size_raises_witness :
  compare_sheets Scenarios.ledger_A Scenarios.ledger_B (Some ["ID"]) 0
  = Raises (ValueError "range() arg 3 must not be zero").
Proof.
  apply (zero_chunk_size_raises Scenarios.ledger_A Scenarios.ledger_B (Some ["ID"])).
  - vm_compute. reflexivity.
  - intros ks Hks. injection Hks as <-. vm_compute. reflexivity.
Defined.

(** X3.  A negative chunk size makes both loops empty: the call returns
    and records no value difference, whatever the cells hold. *)
Theorem negative_chunk_size_compares_nothing (df1 df2 : DataFrame)
    (key_columns : option (list string)) (chunk_size : Z) :
  chunk_size < 0 ->
  ∃ r, compare_sheets df1 df2 key_columns chunk_size = Returns r
       ∧ value_differences (error_details r) = [].
Proof.
  intros Hc.
  assert (forall n, range n chunk_size = Returns []) as Hrange.
  { intros n. unfold range. rewrite bool_decide_eq_false_2 by lia.
    by rewrite bool_decide_eq_true_2 by lia. }
  unfold compare_sheets, compare_sheets_with. destruct (equals df1 df2); [by eexists|].
  destruct (truthy key_columns) as [ks|].
  - destruct (key_columns_present df1 df2 ks).
    + unfold keyed_value_diffs. rewrite Hrange. simpl.
      eexists. split; [done|]. by rewrite keyed_error_details.
    + eexists. split; [done|].
      by rewrite key_columns_missing_error_details, structural_error_details.
  - unfold positional_value_diffs. rewrite Hrange. simpl.
    eexists. split; [done|]. by rewrite positional_error_details.
Qed.

Lemma negative_chunk_size_compares_nothing_witness :
  ∃ r, compare_sheets Scenarios.ledger_A Scenarios.ledger_B None (-1) = Returns r
       ∧ value_differences (error_details r) = [].
Proof.
  apply (negative_chunk_size_compares_nothing Scenarios.ledger_A Scenarios.ledger_B
           None (-1)).
  lia.
Defined.

Lemma fold_insert_lookup {V} (f : V -> list string) (l : list V)
    (m : gmap (list string) V) (k : list string) :
  fold_left (fun d row => <[f row := row]> d) l m !! k =
    match last (filter (fun row => f row = k) l) with
    | Some row => Some row
    | None => m !! k
    end.
Proof.
  revert m. induction l as [|x l IH]; intros m; simpl; [done|].
  rewrite IH, filter_cons. destruct (decide (f x = k)) as [Hx|Hx].
  - rewrite last_cons. destruct (last (filter _ l)); [done|].
    by rewrite <- Hx, lookup_insert_eq.
  - destruct (last (filter _ l)); [done|]. by rewrite lookup_insert_ne.
Qed.

(** The lookup built from a frame maps a key tuple to the last row that
    has it. *)
Lemma build_dict_lookup (df : DataFrame) (key_columns key : list string) :
  build_dict df key_columns !! key =
    last (filter (fun row => key_values df key_columns row = key) (rows df)).
Proof.
  unfold build_dict. rewrite fold_insert_lookup, lookup_empty.
  by destruct (last _).
Qed.

Lemma filter_nil_elem {A} (P : A -> Prop) `{forall x, Decision (P x)} (l : list A) :
  (forall x, x ∈ l -> ¬ P x) -> filter P l = [].
Proof.
  induction l as [|x l IH]; intros HP; [done|].
  rewrite filter_cons_False by (apply HP; left).
  apply IH. intros y Hy. apply HP. by right.
Qed.

(** X4.  When several rows of a frame have the same key tuple, the lookup
    keeps the last of them: a row is what the lookup returns for its key
    as soon as no later row has that key, whatever earlier rows hold; and
    a tuple that no row has is absent. *)
Theorem build_dict_keeps_last_row (df : DataFrame) (key_columns : list string)
    (earlier later : list (list cell)) (row : list cell) :
  rows df = earlier ++ row :: later ->
  (forall row', row' ∈ later ->
     key_values df key_columns row' ≠ key_values df key_columns row) ->
  build_dict df key_columns !! key_values df key_columns row = Some row
  ∧ forall key, (forall row', row' ∈ rows df -> key_values df key_columns row' ≠ key) ->
      build_dict df key_columns !! key = None.
Proof.
  intros Hrows Hlater. split.
  - rewrite build_dict_lookup, Hrows, filter_app, filter_cons_True by done.
    rewrite (filter_nil_elem _ later) by done.
    by rewrite last_snoc.
  - intros key Hkey. rewrite build_dict_lookup.
    by rewrite (filter_nil_elem _ (rows df)) by done.
Qed.

Lemma build_dict_keeps_last_row_witness :
  let df := {| columns := ["ID"; "Value"];
               rows := [[PyInt 1; PyInt 10]; [PyInt 1; PyInt 20]] |} in
  build_dict df ["ID"] !! ["1"] = Some [PyInt 1; PyInt 20].
Proof.
  intros df.
  exact (proj1 (build_dict_keeps_last_row df ["ID"] [[PyInt 1; PyInt 10]] []
                 [PyInt 1; PyInt 20] eq_refl
                 (fun row' H => False_ind _ (proj1 (elem_of_nil row') H)))).
Defined.

Lemma build_dict_dom (df : DataFrame) (key_columns key : list string) :
  key ∈ dom (build_dict df key_columns) ↔ key ∈ key_values df key_columns <$> rows df.
Proof.
  rewrite elem_of_dom, build_dict_lookup, list_elem_of_fmap.
  split.
  - intros [row Hrow]. apply last_Some_elem_of, list_elem_of_filter in Hrow as [<- Hin].
    by exists row.
  - intros (row & -> & Hin).
    destruct (filter _ (rows df)) as [|x l] eqn:Hf.
    + assert (row ∈ filter (fun r => key_values df key_columns r
                                   = key_values df key_columns row) (rows df)) as H
        by (by apply list_elem_of_filter).
      rewrite Hf in H. by apply elem_of_nil in H.
    + rewrite last_cons. destruct (last l); by eexists.
Qed.

Lemma build_dict_size (df : DataFrame) (key_columns : list string) :
  (size (dom (build_dict df key_columns)) <= len df)%nat.
Proof.
  unfold build_dict, len.
  assert (forall l (m : gmap (list string) (list cell)),
    (size (dom (fold_left (fun d row => <[key_values df key_columns row := row]> d) l m))
     <= size (dom m) + length l)%nat) as H.
  { induction l as [|x l IH]; intros m; simpl; [lia|].
    etrans; [apply IH|]. rewrite dom_insert_L.
    pose proof (size_union_alt {[key_values df key_columns x]} (dom m)) as Hu.
    assert (dom m ∖ {[key_values df key_columns x]} ⊆ dom m) as Hsub by set_solver.
    apply subseteq_size in Hsub.
    rewrite Hu, size_singleton. lia. }
  specialize (H (rows df) ∅). rewrite dom_empty_L, size_empty in H. lia.
Qed.

(** X5.  With key columns that both frames have, on frames that are not
    identical, every entry of [missing_rows] is the dictionary of a key
    tuple that some row of the first frame has and no row of the second
    has, every entry of [extra_rows] the reverse; and the keys found only
    in the first frame together with the common keys are no more than the
    rows of the first frame. *)
Theorem missing_and_extra_rows_are_one_sided_keys (df1 df2 : DataFrame)
    (k : string) (ks : list string) (chunk_size : Z) :
  equals df1 df2 = false ->
  key_columns_present df1 df2 (k :: ks) = true ->
  0 < chunk_size ->
  ∃ r, compare_sheets df1 df2 (Some (k :: ks)) chunk_size = Returns r
    ∧ (forall d, d ∈ missing_rows (row_differences (error_details r)) ->
         ∃ key, d = key_dict (k :: ks) key
                ∧ key ∈ key_values df1 (k :: ks) <$> rows df1
                ∧ key ∉ key_values df2 (k :: ks) <$> rows df2)
    ∧ (forall d, d ∈ extra_rows (row_differences (error_details r)) ->
         ∃ key, d = key_dict (k :: ks) key
                ∧ key ∈ key_values df2 (k :: ks) <$> rows df2
                ∧ key ∉ key_values df1 (k :: ks) <$> rows df1)
    ∧ (size (missing_keys df1 df2 (k :: ks)) + size (common_keys df1 df2 (k :: ks))
       <= len df1)%nat.
Proof.
  intros He Hp Hc. unfold compare_sheets, compare_sheets_with. rewrite He. simpl truthy. cbv iota.
  rewrite Hp, keyed_value_diffs_positive by done. cbn [bind].
  eexists. split; [done|]. rewrite keyed_error_details.
  cbn [error_details row_differences missing_rows extra_rows].
  split; [|split].
  - intros d (key & -> & Hkey)%list_elem_of_fmap.
    apply subseteq_take, elem_of_elements in Hkey.
    unfold missing_keys, extra_keys in Hkey.
    apply elem_of_difference in Hkey as [H1 H2].
    exists key. split; [done|]. by rewrite <- !build_dict_dom.
  - intros d (key & -> & Hkey)%list_elem_of_fmap.
    apply subseteq_take, elem_of_elements in Hkey.
    unfold missing_keys, extra_keys in Hkey.
    apply elem_of_difference in Hkey as [H1 H2].
    exists key. split; [done|]. by rewrite <- !build_dict_dom.
  - etrans; [|apply (build_dict_size df1 (k :: ks))].
    unfold missing_keys, common_keys.
    rewrite <- size_union by set_solver.
    apply subseteq_size. set_solver.
Qed.

Lemma missing_and_extra_rows_are_one_sided_keys_witness :
  ∃ r, compare_sheets (Scenarios.numbered 3) (Scenarios.numbered 5) (Some ["ID"]) 10000
       = Returns r
    ∧ (forall d, d ∈ missing_rows (row_differences (error_details r)) ->
         ∃ key, d = key_dict ["ID"] key
                ∧ key ∈ key_values (Scenarios.numbered 3) ["ID"]
                          <$> rows (Scenarios.numbered 3)
                ∧ key ∉ key_values (Scenarios.numbered 5) ["ID"]
                          <$> rows (Scenarios.numbered 5))
    ∧ (forall d, d ∈ extra_rows (row_differences (error_details r)) ->
         ∃ key, d = key_dict ["ID"] key
                ∧ key ∈ key_values (Scenarios.numbered 5) ["ID"]
                          <$> rows (Scenarios.numbered 5)
                ∧ key ∉ key_values (Scenarios.numbered 3) ["ID"]
                          <$> rows (Scenarios.numbered 3))
    ∧ (size (missing_keys (Scenarios.numbered 3) (Scenarios.numbered 5) ["ID"])
       + size (common_keys (Scenarios.numbered 3) (Scenarios.numbered 5) ["ID"])
       <= len (Scenarios.numbered 3))%nat.
Proof.
  apply (missing_and_extra_rows_are_one_sided_keys (Scenarios.numbered 3)
           (Scenarios.numbered 5) "ID" [] 10000).
  - vm_compute. reflexivity.
  - vm_compute. reflexivity.
  - lia.
Defined.

Lemma dict_set_fresh (k v : string) (d : dict) :
  k ∉ d.*1 -> dict_set k v d = d ++ [(k, v)].
Proof.
  induction d as [|[k' v'] d IH]; simpl; [done|].
  rewrite not_elem_of_cons. intros [Hne Hk].
  rewrite bool_decide_eq_false_2 by done. by rewrite IH.
Qed.

Lemma dict_of_pairs_fresh (kvs acc : list (string * string)) :
  NoDup (acc.*1 ++ kvs.*1) ->
  fold_left (fun d kv => dict_set (fst kv) (snd kv) d) kvs acc = acc ++ kvs.
Proof.
  revert acc. induction kvs as [|[k v] kvs IH]; intros acc Hn; simpl.
  { by rewrite app_nil_r. }
  rewrite fmap_cons in Hn. simpl in Hn.
  rewrite dict_set_fresh.
  - rewrite IH; [by rewrite <- app_assoc|].
    rewrite fmap_app. simpl. by rewrite <- app_assoc.
  - apply NoDup_app in Hn as (_ & Hn & _). intros Hk. apply (Hn k Hk). by left.
Qed.

(** X17.  With distinct key columns, the dictionary that describes a row
    in [missing_rows], [extra_rows] and the ["key"] of a value difference
    lists the key columns in the given order, each with the rendering of
    the row's cell in that column. *)
Theorem key_dict_lists_key_cells (df : DataFrame) (key_columns : list string)
    (row : list cell) :
  NoDup key_columns ->
  key_dict key_columns (key_values df key_columns row)
  = (fun col => (col, str (getitem (columns df) row col))) <$> key_columns.
Proof.
  intros Hn. unfold key_dict, dict_of_pairs, key_values.
  assert (forall l : list string,
    Py.zip l ((fun col => str (getitem (columns df) row col)) <$> l)
    = (fun col => (col, str (getitem (columns df) row col))) <$> l) as Hzip.
  { induction l as [|c l IH]; [done|]. rewrite !fmap_cons. cbn [Py.zip]. by rewrite IH. }
  rewrite Hzip, dict_of_pairs_fresh; [done|].
  simpl.
  assert (forall l : list string,
    ((fun col => (col, str (getitem (columns df) row col))) <$> l).*1 = l) as ->; [|done].
  induction l as [|c l IH]; [done|]. rewrite !fmap_cons. simpl. by f_equal.
Qed.

Lemma key_dict_lists_key_cells_witness :
  key_dict ["ID"; "Value"]
    (key_values Scenarios.ledger_A ["ID"; "Value"] [PyInt 2; PyInt 20])
  = [("ID", "2"); ("Value", "20")].
Proof.
  rewrite (key_dict_lists_key_cells Scenarios.ledger_A ["ID"; "Value"]
             [PyInt 2; PyInt 20]).
  - vm_compute. reflexivity.
  - repeat constructor; rewrite ?elem_of_cons, ?elem_of_nil; intuition discriminate.
Defined.

End SheetExtras.

(** ** Row order, report lines and sizes *)
Module ReportExtras.
Import Py Pandas Comparison PyFacts SheetFacts ChunkFacts SheetExtras.
Local Open Scope list_scope.

Lemma filter_key_unique {V} (f : V -> list string) (l : list V) (k : list string) :
  NoDup (f <$> l) -> (length (filter (fun r => f r = k) l) <= 1)%nat.
Proof.
  induction l as [|x l IH]; [simpl; lia|].
  rewrite fmap_cons, NoDup_cons. intros [Hx Hl].
  rewrite filter_cons. destruct (decide (f x = k)) as [Hk|Hk]; [|by apply IH].
  destruct (filter (fun r => f r = k) l) as [|y l'] eqn:Hf; [simpl; lia|].
  exfalso. apply Hx.
  assert (y ∈ filter (fun r => f r = k) l) as Hy by (rewrite Hf; left).
  apply list_elem_of_filter in Hy as [Hy Hin].
  rewrite Hk, <- Hy. by apply list_elem_of_fmap_2.
Qed.

Lemma build_dict_perm (df df' : DataFrame) (ks : list string) :
  columns df' = columns df ->
  rows df' ≡ₚ rows df ->
  NoDup (key_values df ks <$> rows df) ->
  build_dict df' ks = build_dict df ks.
Proof.
  intros Hc Hp Hn. apply map_eq. intros key.
  rewrite !build_dict_lookup.
  assert (key_values df' ks = key_values df ks) as ->.
  { unfold key_values. by rewrite Hc. }
  pose proof (filter_key_unique (key_values df ks) (rows df) key Hn) as Hlen.
  assert (filter (fun row => key_values df ks row = key) (rows df')
          ≡ₚ filter (fun row => key_values df ks row = key) (rows df)) as Hf
    by (by rewrite Hp).
  destruct (filter _ (rows df)) as [|x [|y l]]; simpl in Hlen; [| |lia].
  - by apply Permutation_nil_r in Hf as ->.
  - by apply Permutation_singleton_r in Hf as ->.
Qed.

(** In the model, where a set is listed in the order of [elements]
    whatever the order in which its members arrived, frames with
    reordered rows go through the same computation. *)
Lemma permuted_rows_same_model_result (df1 df1' df2 df2' : DataFrame)
    (k : string) (ks : list string) (chunk_size : Z) :
  columns df1' = columns df1 -> rows df1' ≡ₚ rows df1 ->
  columns df2' = columns df2 -> rows df2' ≡ₚ rows df2 ->
  NoDup (key_values df1 (k :: ks) <$> rows df1) ->
  NoDup (key_values df2 (k :: ks) <$> rows df2) ->
  equals df1 df2 = false ->
  equals df1' df2' = false ->
  compare_sheets df1' df2' (Some (k :: ks)) chunk_size
  = compare_sheets df1 df2 (Some (k :: ks)) chunk_size.
Proof.
  intros Hc1 Hp1 Hc2 Hp2 Hn1 Hn2 He He'.
  pose proof (build_dict_perm df1 df1' (k :: ks) Hc1 Hp1 Hn1) as Hd1.
  pose proof (build_dict_perm df2 df2' (k :: ks) Hc2 Hp2 Hn2) as Hd2.
  assert (len df1' = len df1) as Hl1 by (unfold len; by rewrite Hp1).
  assert (len df2' = len df2) as Hl2 by (unfold len; by rewrite Hp2).
  unfold compare_sheets, compare_sheets_with. rewrite He, He'. simpl truthy. cbv iota.
  unfold key_columns_present, keyed_value_diffs, keyed_report,
    key_columns_missing_report, key_columns_missing_report_with,
    missing_key_cols, key_diffs,
    log_value_differences, log_extra_rows, log_missing_rows,
    structural_report, log_row_count, log_reordered_columns, log_extra_columns,
    log_missing_columns, reordered_cols, row_diff, missing_cols, extra_cols,
    common_cols, df_cols, common_keys, missing_keys, extra_keys.
  by rewrite Hc1, Hc2, Hl1, Hl2, Hd1, Hd2.
Qed.

(** X6.  With key columns, the order of the rows does not matter beyond
    the order of the lists returned.  If the key tuples of each frame
    are distinct and the chunk size is positive, reordering the rows of
    either frame (the frames before and after reordering not being
    identical to one another) gives the same two reports, the same
    column differences and the same row-count difference; the value
    differences are the same records up to their order; the lists of
    missing and of extra rows have the same lengths, and hold the same
    entries up to their order when at most 100 keys are one-sided, that
    is when line 241 or 246 drops none. *)
Theorem keyed_comparison_ignores_row_order (df1 df1' df2 df2' : DataFrame)
    (k : string) (ks : list string) (chunk_size : Z) :
  columns df1' = columns df1 -> rows df1' ≡ₚ rows df1 ->
  columns df2' = columns df2 -> rows df2' ≡ₚ rows df2 ->
  NoDup (key_values df1 (k :: ks) <$> rows df1) ->
  NoDup (key_values df2 (k :: ks) <$> rows df2) ->
  equals df1 df2 = false ->
  equals df1' df2' = false ->
  0 < chunk_size ->
  ∃ r r',
    compare_sheets df1 df2 (Some (k :: ks)) chunk_size = Returns r
    ∧ compare_sheets df1' df2' (Some (k :: ks)) chunk_size = Returns r'
    ∧ detailed_report r' = detailed_report r
    ∧ summary_report r' = summary_report r
    ∧ column_differences (error_details r') = column_differences (error_details r)
    ∧ count_diff (row_differences (error_details r'))
      = count_diff (row_differences (error_details r))
    ∧ value_differences (error_details r') ≡ₚ value_differences (error_details r)
    ∧ length (missing_rows (row_differences (error_details r')))
      = length (missing_rows (row_differences (error_details r)))
    ∧ length (extra_rows (row_differences (error_details r')))
      = length (extra_rows (row_differences (error_details r)))
    ∧ ((size (missing_keys df1 df2 (k :: ks)) <= 100)%nat ->
       missing_rows (row_differences (error_details r'))
       ≡ₚ missing_rows (row_differences (error_details r)))
    ∧ ((size (extra_keys df1 df2 (k :: ks)) <= 100)%nat ->
       extra_rows (row_differences (error_details r'))
       ≡ₚ extra_rows (row_differences (error_details r))).
Proof.
  intros Hc1 Hp1 Hc2 Hp2 Hn1 Hn2 He He' Hc.
  destruct (compare_sheets_returns df1 df2 (Some (k :: ks)) chunk_size Hc) as [r Hr].
  exists r, r. split; [exact Hr|]. split.
  { by rewrite (permuted_rows_same_model_result df1 df1' df2 df2' k ks chunk_size). }
  repeat split; done.
Qed.

(** The theorem at scenario 2 with the rows of the second frame
    swapped. *)
Lemma keyed_comparison_ignores_row_order_witness :
  ∃ r r',
    compare_sheets Scenarios.ledger_A Scenarios.ledger_B (Some ["ID"]) 10000 = Returns r
    ∧ compare_sheets Scenarios.ledger_A
        {| columns := ["ID"; "Value"];
           rows := [[PyInt 2; PyInt 25]; [PyInt 1; PyInt 10]] |}
        (Some ["ID"]) 10000 = Returns r'
    ∧ summary_report r' = summary_report r
    ∧ value_differences (error_details r') ≡ₚ value_differences (error_details r)
    ∧ length (value_differences (error_details r)) = 1%nat.
Proof.
  destruct (keyed_comparison_ignores_row_order Scenarios.ledger_A Scenarios.ledger_A
           Scenarios.ledger_B
           {| columns := ["ID"; "Value"];
              rows := [[PyInt 2; PyInt 25]; [PyInt 1; PyInt 10]] |} "ID" [] 10000)
    as (r & r' & Hr & Hr' & _ & Hs & _ & _ & Hv & _).
  - reflexivity.
  - reflexivity.
  - reflexivity.
  - simpl. apply perm_swap.
  - vm_compute. repeat constructor; rewrite ?elem_of_cons, ?elem_of_nil;
      intuition discriminate.
  - vm_compute. repeat constructor; rewrite ?elem_of_cons, ?elem_of_nil;
      intuition discriminate.
  - vm_compute. reflexivity.
  - vm_compute. reflexivity.
  - lia.
  - exists r, r'. split; [exact Hr|]. split; [exact Hr'|].
    split; [exact Hs|]. split; [exact Hv|].
    clear -Hr. vm_compute in Hr. injection Hr as <-. reflexivity.
Defined.

(** Each step of [compare_sheets] adds its line to both reports. *)
Lemma structural_report_lockstep (df1 df2 : DataFrame) :
  length (detailed_report (structural_report df1 df2))
  = length (summary_report (structural_report df1 df2)).
Proof. loggers; reflexivity. Qed.

Lemma log_value_differences_lockstep (v : list ValueDiff) (r : Report) :
  length (detailed_report r) = length (summary_report r) ->
  length (detailed_report (log_value_differences v r))
  = length (summary_report (log_value_differences v r)).
Proof.
  intros Hr. unfold log_value_differences. case_bool_decide; simpl; [|done].
  rewrite !length_app. simpl. lia.
Qed.

Lemma log_rows_lockstep (df1 df2 : DataFrame) (ks : list string) (r : Report) :
  length (detailed_report r) = length (summary_report r) ->
  length (detailed_report (log_extra_rows df1 df2 ks (log_missing_rows df1 df2 ks r)))
  = length (summary_report (log_extra_rows df1 df2 ks (log_missing_rows df1 df2 ks r))).
Proof.
  intros Hr. unfold log_extra_rows, log_missing_rows.
  repeat case_bool_decide; simpl; rewrite ?length_app; simpl; lia.
Qed.

(** X7.  The two reports of [compare_sheets] go in step: every line of
    the detailed report has its line in the summary report. *)
Theorem compare_sheets_reports_in_step (df1 df2 : DataFrame)
    (key_columns : option (list string)) (chunk_size : Z) (r : Report) :
  compare_sheets df1 df2 key_columns chunk_size = Returns r ->
  length (detailed_report r) = length (summary_report r).
Proof.
  intros Hr. apply compare_sheets_inv in Hr as [[_ ->]|[_ Hr]]; [done|].
  destruct Hr as [[_ (v & _ & ->)]|(ks & _ & [[_ (v & _ & ->)]|[_ ->]])].
  - apply log_value_differences_lockstep, structural_report_lockstep.
  - apply log_value_differences_lockstep, log_rows_lockstep, structural_report_lockstep.
  - unfold key_columns_missing_report, key_columns_missing_report_with. simpl. rewrite !length_app. simpl.
    by rewrite structural_report_lockstep.
Qed.

Lemma compare_sheets_reports_in_step_witness :
  ∃ r, compare_sheets Scenarios.shifted_A Scenarios.shifted_B None 10000 = Returns r
       ∧ length (detailed_report r) = length (summary_report r).
Proof.
  destruct (compare_sheets_returns Scenarios.shifted_A Scenarios.shifted_B None 10000)
    as [r Hr]; [lia|].
  exists r. split; [exact Hr|].
  exact (compare_sheets_reports_in_step _ _ _ _ r Hr).
Defined.

Lemma elements_nil `{Countable K} (s : gset K) : elements s = [] ↔ s = ∅.
Proof. rewrite elements_empty_iff. apply leibniz_equiv_iff. Qed.

Lemma fmap_take_nil {A B} (f : A -> B) (l : list A) : f <$> take 100 l = [] ↔ l = [].
Proof. destruct l; simpl; split; done. Qed.

(** The summary of the positional branch is empty exactly when nothing
    was found. *)
Lemma positional_summary_nil (df1 df2 : DataFrame) (v : list ValueDiff) :
  summary_report (positional_report df1 df2 v) = [] ↔
    missing_cols df1 df2 = ∅ ∧ extra_cols df1 df2 = ∅ ∧ reordered_cols df1 df2 = []
    ∧ row_diff df1 df2 = 0 ∧ v = [].
Proof.
  unfold positional_report. loggers;
    (split; [try discriminate; intros _|intros (? & ? & ? & ? & ?); try done]);
    repeat split; auto using reordered_cols_same_columns.
Qed.

Lemma keyed_summary_nil (df1 df2 : DataFrame) (ks : list string) (v : list ValueDiff) :
  summary_report (keyed_report df1 df2 ks v) = [] ↔
    missing_cols df1 df2 = ∅ ∧ extra_cols df1 df2 = ∅ ∧ reordered_cols df1 df2 = []
    ∧ row_diff df1 df2 = 0 ∧ missing_keys df1 df2 ks = ∅ ∧ extra_keys df1 df2 ks = ∅
    ∧ v = [].
Proof.
  unfold keyed_report. loggers;
    (split; [try discriminate; intros _|intros (? & ? & ? & ? & ? & ? & ?); try done]);
    repeat split; auto using reordered_cols_same_columns.
Qed.

(** X8.  A triple of [compare_sheets] with an empty summary holds no
    difference at all; and unless a key column is absent, a triple that
    holds no difference has an empty summary. *)
Theorem empty_summary_iff_no_difference (df1 df2 : DataFrame)
    (key_columns : option (list string)) (chunk_size : Z) (r : Report) :
  compare_sheets df1 df2 key_columns chunk_size = Returns r ->
  (summary_report r = [] -> error_details r = empty_error_details)
  ∧ ((forall ks, truthy key_columns = Some ks -> key_columns_present df1 df2 ks = true) ->
     error_details r = empty_error_details -> summary_report r = []).
Proof.
  intros Hr. apply compare_sheets_inv in Hr as [[_ ->]|[_ Hr]]; [done|].
  destruct Hr as [[_ (v & _ & ->)]|(ks & Hks & [[_ (v & _ & ->)]|[Hp ->]])].
  - rewrite positional_summary_nil, positional_error_details. split.
    + intros (-> & -> & -> & -> & ->). by rewrite elements_empty.
    + intros _ [= H1%elements_nil H2%elements_nil H3 H4 H5]. done.
  - rewrite keyed_summary_nil, keyed_error_details. split.
    + intros (-> & -> & -> & -> & -> & -> & ->). by rewrite elements_empty.
    + intros _ [= H1%elements_nil H2%elements_nil H3 H4
                  H5%fmap_take_nil%elements_nil H6%fmap_take_nil%elements_nil H7].
      done.
  - split.
    + unfold key_columns_missing_report, key_columns_missing_report_with. simpl.
      intros H. by apply app_nil in H as [_ ?].
    + intros Hall. rewrite (Hall ks Hks) in Hp. discriminate Hp.
Qed.

(** The theorem at a column holding the text [nan] against a column
    holding a missing value, compared by position: the frames are not
    identical, both cells render as [nan], the summary is empty and the
    theorem gives that nothing is recorded; conversely, from the empty
    record the theorem gives the empty summary. *)
Lemma empty_summary_iff_no_difference_witness :
  equals {| columns := ["c"]; rows := [[PyStr "nan"]] |}
         {| columns := ["c"]; rows := [[NaN]] |} = false
  ∧ ∃ r, compare_sheets {| columns := ["c"]; rows := [[PyStr "nan"]] |}
                        {| columns := ["c"]; rows := [[NaN]] |} None 10000 = Returns r
      ∧ summary_report r = []
      ∧ error_details r = empty_error_details
      ∧ (error_details r = empty_error_details -> summary_report r = []).
Proof.
  split; [vm_compute; reflexivity|].
  destruct (compare_sheets_returns {| columns := ["c"]; rows := [[PyStr "nan"]] |}
              {| columns := ["c"]; rows := [[NaN]] |} None 10000)
    as [r Hr]; [lia|].
  destruct (empty_summary_iff_no_difference _ _ _ _ r Hr) as [Hto Hfrom].
  assert (summary_report r = []) as Hs.
  { assert (compare_sheets {| columns := ["c"]; rows := [[PyStr "nan"]] |}
              {| columns := ["c"]; rows := [[NaN]] |} None 10000
            = Returns empty_report) as Hr' by (vm_compute; reflexivity).
    rewrite Hr in Hr'. injection Hr' as ->. reflexivity. }
  exists r. split; [exact Hr|]. split; [exact Hs|].
  split; [exact (Hto Hs)|].
  apply Hfrom. intros ks Hks. discriminate Hks.
Defined.

Lemma flat_map_length_le {A B} (f : A -> list B) (l : list A) (n : nat) :
  (forall x, length (f x) <= n)%nat -> (length (flat_map f l) <= length l * n)%nat.
Proof.
  intros Hf. induction l as [|x l IH]; simpl; [lia|].
  rewrite length_app. specialize (Hf x). lia.
Qed.

Lemma chunk_diffs_length (df1 df2 : DataFrame) (n : nat) :
  (length (chunk_diffs df1 df2 0 n) <= n * size (common_cols df1 df2))%nat.
Proof.
  unfold chunk_diffs.
  etrans; [apply (flat_map_length_le _ _ n)|].
  - intros col. etrans; [apply (flat_map_length_le _ _ 1)|].
    + intros idx. case_bool_decide; simpl; lia.
    + rewrite length_seq. lia.
  - assert (length (elements (common_cols df1 df2)) = size (common_cols df1 df2)) as ->
      by done.
    lia.
Qed.

Lemma key_diffs_length (df1 df2 : DataFrame) (ks key : list string) :
  (length (key_diffs df1 df2 ks key) <= size (common_cols df1 df2))%nat.
Proof.
  unfold key_diffs. etrans; [apply (flat_map_length_le _ _ 1)|].
  - intros col. simpl. case_bool_decide; simpl; lia.
  - assert (length (elements (common_cols df1 df2)) = size (common_cols df1 df2)) as ->
      by done.
    lia.
Qed.

(** X9.  The number of value differences is bounded by the cells that are
    compared: without key columns by the common columns times the rows
    both frames have, with key columns by the common columns times the
    common keys. *)
Theorem value_differences_bounded (df1 df2 : DataFrame)
    (key_columns : option (list string)) (chunk_size : Z) :
  0 < chunk_size ->
  ∃ r, compare_sheets df1 df2 key_columns chunk_size = Returns r
    ∧ (truthy key_columns = None ->
         (length (value_differences (error_details r))
          <= Nat.min (len df1) (len df2) * size (common_cols df1 df2))%nat)
    ∧ (forall ks, truthy key_columns = Some ks ->
         (length (value_differences (error_details r))
          <= size (common_keys df1 df2 ks) * size (common_cols df1 df2))%nat).
Proof.
  intros Hc. unfold compare_sheets, compare_sheets_with.
  destruct (equals df1 df2).
  { eexists. split; [done|]. simpl. split; intros; lia. }
  destruct (truthy key_columns) as [ks|].
  - destruct (key_columns_present df1 df2 ks).
    + rewrite keyed_value_diffs_positive by done. cbn [bind].
      eexists. split; [done|]. rewrite keyed_error_details.
      cbn [error_details value_differences]. split; [done|].
      intros ks' [= <-].
      etrans; [apply (flat_map_length_le _ _ (size (common_cols df1 df2)))|].
      * apply key_diffs_length.
      * done.
    + eexists. split; [done|].
      rewrite key_columns_missing_error_details, structural_error_details.
      simpl. split; intros; lia.
  - destruct (positional_value_diffs_positive df1 df2 chunk_size Hc) as (v & -> & Hv).
    cbn [bind]. eexists. split; [done|]. rewrite positional_error_details.
    cbn [error_details value_differences]. split; [|done].
    intros _. rewrite Hv. apply chunk_diffs_length.
Qed.

Lemma value_differences_bounded_witness :
  ∃ r, compare_sheets (Scenarios.zeros 3) (Scenarios.ones 3) None 10000 = Returns r
    ∧ (truthy None = None ->
         (length (value_differences (error_details r))
          <= Nat.min (len (Scenarios.zeros 3)) (len (Scenarios.ones 3))
             * size (common_cols (Scenarios.zeros 3) (Scenarios.ones 3)))%nat)
    ∧ (forall ks, truthy None = Some ks ->
         (length (value_differences (error_details r))
          <= size (common_keys (Scenarios.zeros 3) (Scenarios.ones 3) ks)
             * size (common_cols (Scenarios.zeros 3) (Scenarios.ones 3)))%nat).
Proof.
  apply (value_differences_bounded (Scenarios.zeros 3) (Scenarios.ones 3) None 10000).
  lia.
Defined.

End ReportExtras.

(** ** Further properties of [compare_files] *)
Module FileExtras.
Import Py Pandas PyFacts SheetFacts Files Merge.
Local Open Scope list_scope.

(** X10.  Two workbooks that share no sheet name make [compare_files]
    raise, although their missing and extra sheets were already
    computed: the worker pool is created with [max_workers=0]. *)
Theorem workbooks_without_common_sheet_raise (names1 names2 : list string)
    (data1 data2 : gmap string DataFrame) :
  (forall sheet, sheet ∈ names1 -> sheet ∉ names2) ->
  compare_files (ExcelFile names1 data1) (ExcelFile names2 data2)
  = Raises (ValueError "max_workers must be greater than 0").
Proof.
  intros Hdisj. unfold compare_files.
  rewrite (bool_decide_eq_false_2 (type _ ≠ type _)) by (intros H; by apply H).
  rewrite bool_decide_eq_true_2; [done|].
  apply set_eq. intros sheet.
  rewrite elem_of_intersection, !elem_of_list_to_set. set_solver.
Qed.

Lemma workbooks_without_common_sheet_raise_witness :
  compare_files (ExcelFile ["Sheet6"] {[ "Sheet6" := Scenarios.ledger_A ]})
                (ExcelFile ["Sheet7"] {[ "Sheet7" := Scenarios.ledger_B ]})
  = Raises (ValueError "max_workers must be greater than 0").
Proof.
  apply (workbooks_without_common_sheet_raise ["Sheet6"] ["Sheet7"]).
  intros sheet H1 H2.
  apply list_elem_of_singleton in H1, H2. subst sheet. discriminate H2.
Defined.

Lemma process_sheet_sheets (data1 data2 : gmap string DataFrame) (r : Report)
    (sheet : string) :
  missing_sheets (error_details (process_sheet data1 data2 r sheet))
  = missing_sheets (error_details r)
  ∧ extra_sheets (error_details (process_sheet data1 data2 r sheet))
    = extra_sheets (error_details r).
Proof.
  unfold process_sheet.
  destruct (data1 !! sheet); [|done]. destruct (data2 !! sheet); [|done].
  destruct (Comparison.compare_sheets _ _ _ _); [|done].
  by destruct (any_values _).
Qed.

Lemma fold_process_sheet_sheets (data1 data2 : gmap string DataFrame)
    (sheets : list string) (r : Report) :
  missing_sheets (error_details (fold_left (process_sheet data1 data2) sheets r))
  = missing_sheets (error_details r)
  ∧ extra_sheets (error_details (fold_left (process_sheet data1 data2) sheets r))
    = extra_sheets (error_details r).
Proof.
  revert r. induction sheets as [|sheet sheets IH]; intros r; simpl; [done|].
  destruct (IH (process_sheet data1 data2 r sheet)) as [-> ->].
  apply process_sheet_sheets.
Qed.

Lemma log_sheets_lists (s1 s2 : gset string) :
  missing_sheets (error_details (log_extra_sheets s2 (log_missing_sheets s1 empty_report)))
  = elements s1
  ∧ extra_sheets (error_details (log_extra_sheets s2 (log_missing_sheets s1 empty_report)))
    = elements s2.
Proof.
  unfold log_extra_sheets, log_missing_sheets.
  repeat case_bool_decide; simpl; subst; by rewrite ?elements_empty.
Qed.

(** X11.  When [compare_files] returns for two workbooks, [missing_sheets]
    lists, once each, the sheet names of the first workbook that the
    second lacks, and [extra_sheets] the names of the second that the
    first lacks. *)
Theorem missing_and_extra_sheets (names1 names2 : list string)
    (data1 data2 : gmap string DataFrame) (r : Report) :
  compare_files (ExcelFile names1 data1) (ExcelFile names2 data2) = Returns r ->
  (forall sheet, sheet ∈ missing_sheets (error_details r) ↔
                 sheet ∈ names1 ∧ sheet ∉ names2)
  ∧ (forall sheet, sheet ∈ extra_sheets (error_details r) ↔
                   sheet ∈ names2 ∧ sheet ∉ names1)
  ∧ NoDup (missing_sheets (error_details r))
  ∧ NoDup (extra_sheets (error_details r)).
Proof.
  unfold compare_files.
  rewrite (bool_decide_eq_false_2 (type _ ≠ type _)) by (intros H; by apply H).
  case_bool_decide; [done|]. intros [= <-].
  destruct (fold_process_sheet_sheets data1 data2
              (elements (list_to_set names1 ∩ list_to_set names2 : gset string))
              (log_extra_sheets (list_to_set names2 ∖ list_to_set names1)
                 (log_missing_sheets (list_to_set names1 ∖ list_to_set names2)
                    empty_report))) as [-> ->].
  destruct (log_sheets_lists (list_to_set names1 ∖ list_to_set names2)
              (list_to_set names2 ∖ list_to_set names1)) as [-> ->].
  split; [|split; [|split; apply NoDup_elements]].
  - intros sheet. by rewrite elem_of_elements, elem_of_difference, !elem_of_list_to_set.
  - intros sheet. by rewrite elem_of_elements, elem_of_difference, !elem_of_list_to_set.
Qed.

Lemma missing_and_extra_sheets_witness :
  ∃ r, compare_files
         (ExcelFile ["Sheet1"; "Sheet6"]
            {[ "Sheet1" := Scenarios.ledger_A; "Sheet6" := Scenarios.ledger_A ]})
         (ExcelFile ["Sheet1"; "Sheet7"]
            {[ "Sheet1" := Scenarios.ledger_B; "Sheet7" := Scenarios.ledger_B ]})
       = Returns r
    ∧ missing_sheets (error_details r) = ["Sheet6"]
    ∧ extra_sheets (error_details r) = ["Sheet7"]
    ∧ (forall sheet, sheet ∈ missing_sheets (error_details r) ↔
                     sheet ∈ ["Sheet1"; "Sheet6"] ∧ sheet ∉ ["Sheet1"; "Sheet7"]).
Proof.
  assert (∃ r, compare_files
         (ExcelFile ["Sheet1"; "Sheet6"]
            {[ "Sheet1" := Scenarios.ledger_A; "Sheet6" := Scenarios.ledger_A ]})
         (ExcelFile ["Sheet1"; "Sheet7"]
            {[ "Sheet1" := Scenarios.ledger_B; "Sheet7" := Scenarios.ledger_B ]})
       = Returns r
    ∧ missing_sheets (error_details r) = ["Sheet6"]
    ∧ extra_sheets (error_details r) = ["Sheet7"]) as (r & Hr & Hm & Hx).
  { eexists. repeat split; vm_compute; reflexivity. }
  exists r. split; [exact Hr|]. split; [exact Hm|]. split; [exact Hx|].
  exact (proj1 (missing_and_extra_sheets _ _ _ _ r Hr)).
Defined.

Lemma process_sheet_result (data1 data2 : gmap string DataFrame) (r : Report)
    (sheet : string) :
  process_sheet data1 data2 r sheet =
    match sheet_result data1 data2 sheet with
    | Some s =>
        with_error_details
          (record_sheet sheet (Comparison.error_details s) (error_details r))
          (extend_reports s r)
    | None => r
    end.
Proof.
  unfold process_sheet, sheet_result.
  destruct (data1 !! sheet); [|done]. destruct (data2 !! sheet); [|done].
  by destruct (Comparison.compare_sheets _ _ _ _).
Qed.

Lemma sheet_result_Some (data1 data2 : gmap string DataFrame) (sheet : string)
    (df1 df2 : DataFrame) :
  data1 !! sheet = Some df1 -> data2 !! sheet = Some df2 ->
  ∃ s, sheet_result data1 data2 sheet = Some s
       ∧ Comparison.compare_sheets df1 df2 None Comparison.default_chunk_size = Returns s.
Proof.
  intros H1 H2. unfold sheet_result. rewrite H1, H2.
  destruct (compare_sheets_returns df1 df2 None Comparison.default_chunk_size)
    as [s Hs]; [unfold Comparison.default_chunk_size; lia|].
  rewrite Hs. by exists s.
Qed.

(** The three dictionaries after the sheets of [sheets] were merged. *)
Ltac fold_lookup :=
  let IH := fresh "IH" in
  intros sheets; induction sheets as [|x sheets IH]; intros r sheet; cbn [fold_left];
  [ rewrite decide_False by (by intros ?%elem_of_nil); done
  | rewrite IH, process_sheet_result;
    destruct (decide (sheet ∈ sheets)) as [Hin|Hin];
    [ rewrite (decide_True (P := sheet ∈ x :: sheets)) by (by right)
    | destruct (decide (sheet = x)) as [->|Hne];
      [ rewrite (decide_True (P := x ∈ x :: sheets)) by (by left)
      | rewrite (decide_False (P := sheet ∈ x :: sheets))
          by (intros [?|?]%elem_of_cons; done) ] ] ].

Lemma fold_columns_lookup (data1 data2 : gmap string DataFrame) :
  forall (sheets : list string) (r : Report) (sheet : string),
  column_differences (error_details (fold_left (process_sheet data1 data2) sheets r))
    !! sheet =
    match (if decide (sheet ∈ sheets) then sheet_result data1 data2 sheet else None) with
    | Some s => Some (Comparison.column_differences (Comparison.error_details s))
    | None => column_differences (error_details r) !! sheet
    end.
Proof.
  fold_lookup.
  - destruct (sheet_result data1 data2 sheet) as [s|] eqn:Hs; [done|].
    destruct (sheet_result data1 data2 x) as [s'|] eqn:Hs'; [|done].
    simpl. rewrite lookup_insert_ne; [done|]. intros ->. congruence.
  - destruct (sheet_result data1 data2 x) as [s|]; [|done].
    simpl. by rewrite lookup_insert_eq.
  - destruct (sheet_result data1 data2 x) as [s|]; [|done].
    simpl. by rewrite lookup_insert_ne.
Qed.

Lemma fold_rows_lookup (data1 data2 : gmap string DataFrame) :
  forall (sheets : list string) (r : Report) (sheet : string),
  row_differences (error_details (fold_left (process_sheet data1 data2) sheets r))
    !! sheet =
    match (if decide (sheet ∈ sheets) then sheet_result data1 data2 sheet else None) with
    | Some s => Some (Comparison.row_differences (Comparison.error_details s))
    | None => row_differences (error_details r) !! sheet
    end.
Proof.
  fold_lookup.
  - destruct (sheet_result data1 data2 sheet) as [s|] eqn:Hs; [done|].
    destruct (sheet_result data1 data2 x) as [s'|] eqn:Hs'; [|done].
    simpl. rewrite lookup_insert_ne; [done|]. intros ->. congruence.
  - destruct (sheet_result data1 data2 x) as [s|]; [|done].
    simpl. by rewrite lookup_insert_eq.
  - destruct (sheet_result data1 data2 x) as [s|]; [|done].
    simpl. by rewrite lookup_insert_ne.
Qed.

Lemma fold_values_lookup (data1 data2 : gmap string DataFrame) :
  forall (sheets : list string) (r : Report) (sheet : string),
  value_differences (error_details (fold_left (process_sheet data1 data2) sheets r))
    !! sheet =
    match (if decide (sheet ∈ sheets) then sheet_result data1 data2 sheet else None) with
    | Some s =>
        if bool_decide (Comparison.value_differences (Comparison.error_details s) ≠ [])
        then Some (Comparison.value_differences (Comparison.error_details s))
        else value_differences (error_details r) !! sheet
    | None => value_differences (error_details r) !! sheet
    end.
Proof.
  fold_lookup.
  - destruct (sheet_result data1 data2 sheet) as [s|] eqn:Hs.
    + case_bool_decide; [done|].
      destruct (sheet_result data1 data2 x) as [s'|] eqn:Hs'; [|done].
      simpl. unfold truthy_values. case_bool_decide; [|done].
      destruct (decide (x = sheet)) as [->|Hne]; [congruence|].
      by rewrite lookup_insert_ne.
    + destruct (sheet_result data1 data2 x) as [s'|] eqn:Hs'; [|done].
      simpl. unfold truthy_values. case_bool_decide; [|done].
      rewrite lookup_insert_ne; [done|]. intros ->. congruence.
  - destruct (sheet_result data1 data2 x) as [s|]; [|done].
    simpl. unfold truthy_values. case_bool_decide; [|done].
    by rewrite lookup_insert_eq.
  - destruct (sheet_result data1 data2 x) as [s|]; [|done].
    simpl. unfold truthy_values. case_bool_decide; [|done].
    by rewrite lookup_insert_ne.
Qed.

(** X12.  When [compare_files] returns for two workbooks, the per-sheet
    dictionaries hold an entry exactly for the sheet names common to both
    workbooks whose frames both dictionaries hold: the column and the row
    entry of [compare_sheets] on the two frames, even when the two sheets
    are identical, and its value differences when there are any.  A
    common sheet whose frames are both present always has its column and
    row entries. *)
Theorem common_sheets_get_their_entries (names1 names2 : list string)
    (data1 data2 : gmap string DataFrame) (r : Report) (sheet : string) :
  compare_files (ExcelFile names1 data1) (ExcelFile names2 data2) = Returns r ->
  let merged := if decide (sheet ∈ names1 ∧ sheet ∈ names2)
                then sheet_result data1 data2 sheet else None in
  column_differences (error_details r) !! sheet
  = (fun s => Comparison.column_differences (Comparison.error_details s)) <$> merged
  ∧ row_differences (error_details r) !! sheet
    = (fun s => Comparison.row_differences (Comparison.error_details s)) <$> merged
  ∧ value_differences (error_details r) !! sheet
    = merged ≫= (fun s =>
        if bool_decide (Comparison.value_differences (Comparison.error_details s) ≠ [])
        then Some (Comparison.value_differences (Comparison.error_details s))
        else None)
  ∧ (forall df1 df2, data1 !! sheet = Some df1 -> data2 !! sheet = Some df2 ->
       ∃ s, sheet_result data1 data2 sheet = Some s
            ∧ Comparison.compare_sheets df1 df2 None Comparison.default_chunk_size
              = Returns s).
Proof.
  unfold compare_files.
  rewrite (bool_decide_eq_false_2 (type _ ≠ type _)) by (intros H; by apply H).
  case_bool_decide; [done|]. intros [= <-]. cbv zeta.
  set (merged := if decide (sheet ∈ names1 ∧ sheet ∈ names2) then _ else _).
  rewrite fold_columns_lookup, fold_rows_lookup, fold_values_lookup.
  assert ((if decide (sheet ∈ elements (list_to_set names1 ∩ list_to_set names2
                                          : gset string))
           then sheet_result data1 data2 sheet else None) = merged) as ->.
  { unfold merged. apply decide_ext.
    by rewrite elem_of_elements, elem_of_intersection, !elem_of_list_to_set. }
  assert (forall s1 s2 : gset string,
    column_differences (error_details (log_extra_sheets s2 (log_missing_sheets s1 empty_report)))
    = ∅
    ∧ row_differences (error_details (log_extra_sheets s2 (log_missing_sheets s1 empty_report)))
      = ∅
    ∧ value_differences (error_details (log_extra_sheets s2 (log_missing_sheets s1 empty_report)))
      = ∅) as Hempty.
  { intros s1 s2. unfold log_extra_sheets, log_missing_sheets.
    by repeat case_bool_decide. }
  destruct (Hempty (list_to_set names1 ∖ list_to_set names2)
                   (list_to_set names2 ∖ list_to_set names1)) as (-> & -> & ->).
  rewrite !lookup_empty.
  split; [by destruct merged|]. split; [by destruct merged|].
  split; [destruct merged; simpl; [by case_bool_decide|done]|].
  intros df1 df2. apply sheet_result_Some.
Qed.

Lemma common_sheets_get_their_entries_witness :
  ∃ r, compare_files
         (ExcelFile ["Sheet1"] {[ "Sheet1" := Scenarios.ledger_A ]})
         (ExcelFile ["Sheet1"] {[ "Sheet1" := Scenarios.ledger_A ]})
       = Returns r
    ∧ column_differences (error_details r) !! "Sheet1"
      = Some (Comparison.column_differences Comparison.empty_error_details)
    ∧ row_differences (error_details r) !! "Sheet1"
      = Some (Comparison.row_differences Comparison.empty_error_details)
    ∧ value_differences (error_details r) !! "Sheet1" = None.
Proof.
  assert (∃ r, compare_files
         (ExcelFile ["Sheet1"] {[ "Sheet1" := Scenarios.ledger_A ]})
         (ExcelFile ["Sheet1"] {[ "Sheet1" := Scenarios.ledger_A ]})
       = Returns r) as [r Hr].
  { eexists. vm_compute. reflexivity. }
  exists r. split; [exact Hr|].
  destruct (common_sheets_get_their_entries _ _ _ _ r "Sheet1" Hr)
    as (Hc & Hrow & Hv & _).
  rewrite Hc, Hrow, Hv. vm_compute. repeat split; reflexivity.
Defined.

End FileExtras.

(** ** The integer downcast *)
Module OptimizeExtras.
Import Optimize.

(** X13.  The integer type [optimize_dataframe] chooses for a column
    holds every value of the column: converting a value that lies between
    the column's minimum and maximum (both in the range of [int64])
    leaves it unchanged. *)
Theorem downcast_keeps_values (col_min col_max v : Z) :
  - 2 ^ 63 <= col_min ->
  col_max < 2 ^ 63 ->
  col_min <= v <= col_max ->
  astype (target_dtype col_min col_max) v = v.
Proof.
  intros Hmin Hmax Hv. unfold target_dtype.
  repeat (case_bool_decide; simpl);
    unfold astype; simpl;
    repeat match goal with
      | |- context [2 ^ ?n / 2] =>
          let c := eval vm_compute in (2 ^ n / 2) in change (2 ^ n / 2) with c
      | |- context [2 ^ ?n] =>
          let c := eval vm_compute in (2 ^ n) in change (2 ^ n) with c
      end;
    rewrite Z.mod_small by lia; lia.
Qed.

Lemma downcast_keeps_values_witness :
  astype (target_dtype (-5) 300) 300 = 300.
Proof. apply (downcast_keeps_values (-5) 300 300); lia. Defined.

End OptimizeExtras.

(** ** What the page shows *)
Module DisplayExtras.
Import Py Pandas PyFacts SheetFacts ReportExtras Files Display.
Local Open Scope list_scope.

(** The keys the page asks for are not the keys [compare_sheets] sets. *)
Lemma column_section_subheader (item : string * Comparison.ColumnDifferences) :
  column_section item = [subheader ("Column Differences in " +:+ fst item)].
Proof. reflexivity. Qed.

Lemma write_in_error_analysis (e : ErrorDetails) (args : list string) :
  write args ∈ error_analysis e ->
  args = [join ", " (missing_sheets e)] ∨ args = [join ", " (extra_sheets e)].
Proof.
  unfold error_analysis. rewrite !elem_of_app. intros [H|[H|[H|H]]].
  - case_bool_decide as Hg; [|by apply elem_of_nil in H].
    apply elem_of_cons in H as [H|H]; [discriminate H|].
    apply list_elem_of_singleton in H. injection H as ->. by left.
  - case_bool_decide as Hg; [|by apply elem_of_nil in H].
    apply elem_of_cons in H as [H|H]; [discriminate H|].
    apply list_elem_of_singleton in H. injection H as ->. by right.
  - apply list_elem_of_In, in_flat_map in H as (item & _ & H).
    rewrite column_section_subheader in H. by destruct H as [H|[]].
  - unfold value_section in H. case_bool_decide as Hg; [|by apply elem_of_nil in H].
    apply elem_of_cons in H as [H|H]; [discriminate H|].
    case_bool_decide as Hg'; [|by apply elem_of_nil in H].
    apply elem_of_app in H as [H|H].
    + apply list_elem_of_fmap in H as (w & H & _). discriminate H.
    + apply list_elem_of_singleton in H. discriminate H.
Qed.

(** X14.  The page never names a missing or an extra column and never
    gives the column-order notice: the only things it writes are the two
    lists of sheet names, while every sheet with a column entry gets its
    "Column Differences" heading whenever the summary is not empty. *)
Theorem column_names_never_displayed (summary_report detailed_report : list string)
    (e : ErrorDetails) (highlighted_excel : option string) :
  (forall args,
     write args ∈ display_comparison_results summary_report detailed_report e
                    highlighted_excel ->
     args = [join ", " (missing_sheets e)] ∨ args = [join ", " (extra_sheets e)])
  ∧ (forall sheet details,
       summary_report ≠ [] ->
       column_differences e !! sheet = Some details ->
       subheader ("Column Differences in " +:+ sheet)
         ∈ display_comparison_results summary_report detailed_report e highlighted_excel).
Proof.
  split.
  - intros args. unfold display_comparison_results.
    case_bool_decide as Hsum; [|by intros [=]%list_elem_of_singleton].
    rewrite !elem_of_app. intros [H|[H|[H|H]]].
    + apply list_elem_of_singleton in H. discriminate H.
    + apply list_elem_of_fmap in H as (w & H & _). discriminate H.
    + case_bool_decide as Hdet; [|by apply elem_of_nil in H].
      apply elem_of_app in H as [H|H].
      * apply list_elem_of_singleton in H. discriminate H.
      * destruct highlighted_excel as [[|c bytes]|];
          repeat (apply elem_of_cons in H as [H|H]; [discriminate H|]);
          by apply elem_of_nil in H.
    + destruct (any_values e); [|by apply elem_of_nil in H].
      apply elem_of_app in H as [H|H].
      * apply list_elem_of_singleton in H. discriminate H.
      * by apply write_in_error_analysis.
  - intros sheet details Hs He. unfold display_comparison_results.
    rewrite bool_decide_eq_true_2 by done.
    assert (any_values e = true) as ->.
    { unfold any_values.
      rewrite (bool_decide_eq_true_2 (column_differences e ≠ ∅)).
      - by rewrite !orb_true_r.
      - intros Hempty. rewrite Hempty, lookup_empty in He. discriminate He. }
    rewrite !elem_of_app. do 3 right. right.
    unfold error_analysis. rewrite !elem_of_app. right. right. left.
    apply list_elem_of_In, in_flat_map. exists (sheet, details).
    split; [by apply list_elem_of_In, elem_of_map_to_list|].
    rewrite column_section_subheader. by left.
Qed.

Lemma column_names_never_displayed_witness :
  let e := {| missing_sheets := []; extra_sheets := [];
              column_differences :=
                {[ "data" := {| Comparison.missing_columns := ["Extra"];
                                Comparison.extra_columns := [];
                                Comparison.reordered_columns := [] |} ]};
              row_differences := ∅; value_differences := ∅ |} in
  subheader "Column Differences in data"
    ∈ display_comparison_results ["Missing columns: 1"]
        ["Missing columns in second file: Extra"] e None.
Proof.
  intros e.
  apply (proj2 (column_names_never_displayed ["Missing columns: 1"]
                  ["Missing columns in second file: Extra"] e None) "data"
               {| Comparison.missing_columns := ["Extra"];
                  Comparison.extra_columns := [];
                  Comparison.reordered_columns := [] |}).
  - discriminate.
  - vm_compute. reflexivity.
Defined.

Lemma flat_map_length_elem {A B} (f : A -> list B) (l : list A) (x : A) :
  x ∈ l -> (length (f x) <= length (flat_map f l))%nat.
Proof.
  induction l as [|y l IH]; [by intros ?%elem_of_nil|].
  simpl. rewrite length_app. intros [->|Hx]%elem_of_cons; [lia|].
  specialize (IH Hx). lia.
Qed.

(** X15.  Whenever the highlighter drops value differences of some sheet
    (the sheet has more than 1000 of them), the page, if it shows any
    summary, carries the warning that only 1000 of the records of all
    sheets are shown. *)
Theorem page_warns_when_highlighter_truncates (summary_report detailed_report : list string)
    (e : ErrorDetails) (highlighted_excel : option string)
    (sheet : string) (v : list Comparison.ValueDiff) :
  summary_report ≠ [] ->
  value_differences e !! sheet = Some v ->
  Highlighting.limit_value_diffs v ≠ v ->
  warning ("Showing only 1000 of "
             +:+ pretty (length (all_diffs (value_differences e)))
             +:+ " value differences")
    ∈ display_comparison_results summary_report detailed_report e highlighted_excel.
Proof.
  intros Hs He Hlimit.
  assert (1000 < length v)%nat as Hv.
  { unfold Highlighting.limit_value_diffs in Hlimit. by case_bool_decide. }
  assert (1000 < length (all_diffs (value_differences e)))%nat as Hall.
  { unfold all_diffs.
    pose proof (flat_map_length_elem
      (fun item : string * list Comparison.ValueDiff =>
         (fun diff => (fst item, diff)) <$> snd item)
      (map_to_list (value_differences e)) (sheet, v)) as Hle.
    simpl in Hle. rewrite length_fmap in Hle.
    specialize (Hle (proj2 (elem_of_map_to_list _ _ _) He)). lia. }
  assert (value_differences e ≠ ∅) as Hne.
  { intros Hempty. rewrite Hempty, lookup_empty in He. discriminate He. }
  unfold display_comparison_results. rewrite bool_decide_eq_true_2 by done.
  assert (any_values e = true) as ->.
  { unfold any_values. rewrite (bool_decide_eq_true_2 (value_differences e ≠ ∅)) by done.
    by rewrite !orb_true_r. }
  rewrite !elem_of_app. do 3 right. right.
  unfold error_analysis. rewrite !elem_of_app. do 3 right.
  unfold value_section. rewrite bool_decide_eq_true_2 by done.
  rewrite bool_decide_eq_true_2
    by (intros Hnil; rewrite Hnil in Hall; simpl in Hall; lia).
  apply elem_of_app. right. apply elem_of_app. left.
  unfold App.displayed_value_diffs. rewrite bool_decide_eq_true_2 by done.
  simpl. by left.
Qed.

Lemma page_warns_when_highlighter_truncates_witness :
  let d := {| Comparison.at_ := Comparison.Row 0; Comparison.column := "c";
              Comparison.value1 := "0"; Comparison.value2 := "1" |} in
  let e := {| missing_sheets := []; extra_sheets := [];
              column_differences := ∅; row_differences := ∅;
              value_differences := {[ "data" := replicate 1001 d ]} |} in
  warning ("Showing only 1000 of "
             +:+ pretty (length (all_diffs (value_differences e)))
             +:+ " value differences")
    ∈ display_comparison_results ["Value differences: 1001"]
        ["Value differences: 1001"] e None.
Proof.
  intros d e.
  apply (page_warns_when_highlighter_truncates ["Value differences: 1001"]
           ["Value differences: 1001"] e None "data" (replicate 1001 d)).
  - discriminate.
  - vm_compute. reflexivity.
  - intros H. apply (f_equal length) in H. vm_compute in H. discriminate H.
Defined.

Lemma positional_summary_iff_details (df1 df2 : DataFrame) (chunk_size : Z)
    (s : Comparison.Report) :
  Comparison.compare_sheets df1 df2 None chunk_size = Returns s ->
  Comparison.summary_report s = [] ↔
    Comparison.error_details s = Comparison.empty_error_details.
Proof.
  intros Hs. apply compare_sheets_inv in Hs as [[_ ->]|[_ Hs]]; [done|].
  destruct Hs as [[_ (v & _ & ->)]|(ks & Hk & _)]; [|discriminate Hk].
  rewrite positional_summary_nil, positional_error_details. split.
  - intros (-> & -> & -> & -> & ->). by rewrite elements_empty.
  - intros [= H1%elements_nil H2%elements_nil H3 H4 H5]. done.
Qed.

(** X16.  For two CSV inputs the page shows "No differences found"
    exactly when [compare_sheets] recorded no difference between the two
    frames: no column, row-count or value difference. *)
Theorem csv_page_says_identical_iff_no_difference (df1 df2 : DataFrame) (r : Report)
    (highlighted_excel : option string) :
  compare_files (CsvFile df1) (CsvFile df2) = Returns r ->
  display_comparison_results (summary_report r) (detailed_report r) (error_details r)
    highlighted_excel
  = [success "No differences found! The files are identical."]
  ↔ ∃ s, Comparison.compare_sheets df1 df2 None Comparison.default_chunk_size = Returns s
         ∧ Comparison.error_details s = Comparison.empty_error_details.
Proof.
  unfold compare_files.
  rewrite (bool_decide_eq_false_2 (type _ ≠ type _)) by (intros H; by apply H).
  destruct (Comparison.compare_sheets df1 df2 None Comparison.default_chunk_size)
    as [s|err] eqn:Hs; simpl; [|done].
  intros [= <-]. simpl.
  pose proof (positional_summary_iff_details _ _ _ _ Hs) as Hiff.
  unfold display_comparison_results. split.
  - case_bool_decide as Hsum; [discriminate|]. intros _.
    exists s. split; [done|]. by apply Hiff.
  - intros (s' & [= <-] & Hd). apply Hiff in Hd.
    rewrite bool_decide_eq_false_2; [done|]. intros Hne. by apply Hne.
Qed.

Lemma csv_page_says_identical_iff_no_difference_witness :
  ∃ r, compare_files (CsvFile Scenarios.ledger_A) (CsvFile Scenarios.ledger_A) = Returns r
    ∧ display_comparison_results (summary_report r) (detailed_report r)
        (error_details r) None
      = [success "No differences found! The files are identical."].
Proof.
  assert (∃ r, compare_files (CsvFile Scenarios.ledger_A) (CsvFile Scenarios.ledger_A)
               = Returns r) as [r Hr].
  { eexists. vm_compute. reflexivity. }
  exists r. split; [exact Hr|].
  apply (csv_page_says_identical_iff_no_difference _ _ r None Hr).
  exists Comparison.empty_report. split; vm_compute; reflexivity.
Defined.

End DisplayExtras.
